(** * PRIME CVD risk calculator: a shallow embedding of [prime_cvd_app.py]

    The four calculation functions of the program and its main logic are
    embedded as Rocq functions and the properties of the specification are
    proved about them.

    Python is dynamically typed and its arithmetic may raise, so the
    functions are written once, over an interface [PyNum] of possibly
    failing arithmetic, in an exception monad.  They are then read at
    - the real numbers [R] (the "decimal" numbers of the specification:
      arithmetic without rounding, [math.log] partial, [math.exp] raising
      when its result leaves the binary64 range, division by zero an
      error), and
    - Python objects carrying IEEE-754 binary64 floats ([pyobj], built on
      Rocq's primitive floats: rounding, infinities and NaN as on the
      machine, [None] for an absent value). *)

From Stdlib Require Import ZArith QArith Qreals Reals Lra Lia.
From Stdlib Require Import Bool List String Ascii.
From Stdlib Require Import Floats.
Import ListNotations.

Set Implicit Arguments.
Set Warnings "-inexact-float".

(** ** Exceptions and the exception monad *)

(** The exceptions the arithmetic of the program can raise; [msg] is the
    text [str(e)] gives. *)
Inductive exn : Type :=
| ValueError (msg : string)
| OverflowError (msg : string)
| ZeroDivisionError (msg : string)
| TypeError (msg : string)
| UnicodeEncodeError (msg : string).

Definition exn_str (e : exn) : string :=
  match e with
  | ValueError msg | OverflowError msg | ZeroDivisionError msg | TypeError msg
  | UnicodeEncodeError msg => msg
  end.

(** A computation that returns a value or raises. *)
Definition Exc (A : Type) : Type := (exn + A)%type.

Definition ret {A : Type} (a : A) : Exc A := inr a.

Definition raise {A : Type} (e : exn) : Exc A := inl e.

Definition bind {A B : Type} (m : Exc A) (k : A -> Exc B) : Exc B :=
  match m with
  | inl e => inl e
  | inr a => k a
  end.

(** A binary operator applied to two expressions: the left operand is
    evaluated first, then the right one, then the operator. *)
Definition lift2 {A B C : Type} (op : A -> B -> Exc C) (m1 : Exc A) (m2 : Exc B) : Exc C :=
  bind m1 (fun a => bind m2 (fun b => op a b)).

Declare Scope py_scope.
Delimit Scope py_scope with py.

Notation "x <- m ;; k" := (bind m (fun x => k))
  (at level 61, m at next level, right associativity) : py_scope.

(** ** Python numbers *)

(** The arithmetic the program uses.  [of_int] reads a Python [int] as a
    number of the type, [of_dec] a decimal literal of the source;
    [py_bool] is truthiness. *)
Class PyNum (T : Type) : Type := {
  of_int : Z -> T;
  of_dec : Q -> T;
  py_add : T -> T -> Exc T;
  py_sub : T -> T -> Exc T;
  py_mul : T -> T -> Exc T;
  py_div : T -> T -> Exc T;
  py_lt : T -> T -> Exc bool;
  py_gt : T -> T -> Exc bool;
  py_ge : T -> T -> Exc bool;
  py_bool : T -> bool
}.

(** The functions of [math] and the builtins the baseline estimator calls:
    [math.log], [math.exp], [**] and [round(x, ndigits)]. *)
Class PyMath (T : Type) : Type := {
  math_log : T -> Exc T;
  math_exp : T -> Exc T;
  py_pow : T -> T -> Exc T;
  py_round : T -> Z -> Exc T
}.

Notation "x + y" := (lift2 py_add x y) : py_scope.
Notation "x - y" := (lift2 py_sub x y) : py_scope.
Notation "x * y" := (lift2 py_mul x y) : py_scope.
Notation "x / y" := (lift2 py_div x y) : py_scope.
Notation "x ** y" := (lift2 py_pow x y) (at level 30, right associativity) : py_scope.

Section Python.

Context {T : Type} {num : PyNum T}.

(** A variable, an [int] and a decimal literal as expressions. *)
Definition val (x : T) : Exc T := ret x.

Definition int (z : Z) : Exc T := ret (of_int z).

Definition lit (q : Q) : Exc T := ret (of_dec q).

(** [min(a, b)]: the first argument unless the second is smaller. *)
Definition py_min (a b : T) : Exc T :=
  (c <- py_lt b a ;; ret (if c then b else a))%py.

(** [max(a, b)]: the first argument unless the second is greater. *)
Definition py_max (a b : T) : Exc T :=
  (c <- py_gt b a ;; ret (if c then b else a))%py.

End Python.

Arguments int {T num} z%_Z.
Arguments lit {T num} q%_Q.

(** ** Dictionaries and lists *)

(** [d.get(k, default)] on a dictionary with string keys, kept as the list
    of its items. *)
Fixpoint dict_get {V : Type} (k : string) (d : list (string * V)) (default : V) : V :=
  match d with
  | [] => default
  | (k', v) :: d' => if String.eqb k k' then v else dict_get k d' default
  end.

(** [x in l] for a list of strings. *)
Definition py_in (x : string) (l : list string) : bool :=
  existsb (String.eqb x) l.

(** [s.replace(' ', '_')]. *)
Fixpoint replace_space (s : string) : string :=
  match s with
  | EmptyString => EmptyString
  | String c s' =>
      String (if Ascii.eqb c " "%char then "_"%char else c) (replace_space s')
  end.

(** A Python string is kept as the bytes of its UTF-8 encoding.  A
    character up to U+00FF takes one byte below 0x80, or two bytes led by
    0xC2 or 0xC3; every other character has a lead byte of 0xC4 or more.
    So [s.encode('latin1')] succeeds exactly when every byte is below
    0xC4. *)
Definition latin1_encodable (s : string) : bool :=
  forallb (fun c => (nat_of_ascii c <? 196)%nat) (list_ascii_of_string s).

(** What encoding such a string raises; of the exception's text the
    character and its position are left out. *)
Definition latin1_error : exn :=
  UnicodeEncodeError "'latin-1' codec can't encode character: ordinal not in range(256)".

(** ** Constants *)

Open Scope string_scope.

Definition LDL_THERAPIES : list (string * list (string * Z)) :=
  [ ("Atorvastatin 20 mg", [("reduction", 40%Z)]);
    ("Atorvastatin 80 mg", [("reduction", 50%Z)]);
    ("Rosuvastatin 10 mg", [("reduction", 45%Z)]);
    ("Rosuvastatin 20 mg", [("reduction", 55%Z)]) ].

(** [list(LDL_THERAPIES.keys())] *)
Definition therapy_keys : list string := map fst LDL_THERAPIES.

(** ** The user interface

    What the program shows is kept as the list of the Streamlit calls it
    made.  Numbers are kept as numbers: formatting them ([f"{x:.1f}"])
    belongs to the rendering layer. *)

(** The arguments of [create_pdf_report]: [patient_data] and [risk_data]. *)
Record pdf_report (T : Type) : Type := {
  report_name : string;
  report_age : Z;
  report_sex : string;
  report_baseline_risk : T;
  report_final_risk : T;
  report_current_ldl : T;
  report_ldl_target : T;
  report_recommendations : string
}.

Inductive ui_event (T : Type) : Type :=
| st_error (msg : string)
| st_warning (msg : string)
| st_success (label : string) (value : T)
| st_metric (label : string) (value : T) (delta : T)
| st_subheader (body : string)
| st_write (body : string)
| st_download_button (label : string) (data : pdf_report T) (file_name : string).

Arguments st_error {T} msg.
Arguments st_warning {T} msg.
Arguments st_subheader {T} body.
Arguments st_write {T} body.

(** A computation that shows things on the page and then returns a value
    or raises. *)
Definition UI (T A : Type) : Type := (list (ui_event T) * Exc A)%type.

Definition ui_ret {T A : Type} (a : A) : UI T A := ([], ret a).

Definition ui_bind {T A B : Type} (m : UI T A) (k : A -> UI T B) : UI T B :=
  match m with
  | (shown, inl e) => (shown, inl e)
  | (shown, inr a) => let '(shown', r) := k a in ((shown ++ shown')%list, r)
  end.

Definition emit {T : Type} (ev : ui_event T) : UI T unit := ([ev], ret tt).

(** A computation that shows nothing. *)
Definition run {T A : Type} (m : Exc A) : UI T A := ([], m).

(** [try: body except Exception as e: handler e] *)
Definition try_except {T A : Type} (body : UI T A) (handler : exn -> UI T A) : UI T A :=
  match body with
  | (shown, inl e) => let '(shown', r) := handler e in ((shown ++ shown')%list, r)
  | (shown, inr a) => (shown, inr a)
  end.

Declare Scope ui_scope.
Delimit Scope ui_scope with ui.

Notation "x <- m ;; k" := (ui_bind m (fun x => k))
  (at level 61, m at next level, right associativity) : ui_scope.
Notation "m ;; k" := (ui_bind m (fun _ => k))
  (at level 61, right associativity) : ui_scope.

(** ** Calculation functions *)

Section Calculation.

Context {T : Type} {num : PyNum T} {libm : PyMath T}.

(** The [try] suite of [calculate_smart_risk]. *)
Definition calculate_smart_risk_try (age : Z) (sex : string) (sbp : Z)
    (total_chol hdl : T) (smoker diabetes : bool) (egfr : Z) (crp : T)
    (vasc_count : Z) : Exc (option T) :=
  (let sex_val := if sex =? "Male" then 1%Z else 0%Z in
   let smoking_val := if smoker then 1%Z else 0%Z in
   let diabetes_val := if diabetes then 1%Z else 0%Z in
   crp_log <- bind (val crp + int 1) math_log ;;
   lp <- lit 0.064 * int age + lit 0.34 * int sex_val + lit 0.02 * int sbp
         + lit 0.25 * val total_chol - lit 0.25 * val hdl
         + lit 0.44 * int smoking_val + lit 0.51 * int diabetes_val
         - lit 0.2 * (int egfr / int 10) + lit 0.25 * val crp_log
         + lit 0.4 * int vasc_count ;;
   risk10 <- int 1 - lit 0.900 ** bind (val lp - lit 5.8) math_exp ;;
   rounded <- bind (val risk10 * int 100) (fun x => py_round x 1) ;;
   low <- py_min (of_dec 99.0) rounded ;;
   high <- py_max (of_dec 1.0) low ;;
   ret (Some high))%py.

(** [@st.cache_data] memoises the function on its arguments; the function
    is deterministic, so the cache is not part of the model. *)
Definition calculate_smart_risk (age : Z) (sex : string) (sbp : Z)
    (total_chol hdl : T) (smoker diabetes : bool) (egfr : Z) (crp : T)
    (vasc_count : Z) : UI T (option T) :=
  try_except
    (run (calculate_smart_risk_try age sex sbp total_chol hdl smoker diabetes
            egfr crp vasc_count))
    (fun e =>
       (emit (st_error ("Error calculating risk: " ++ exn_str e)) ;;
        ui_ret None)%ui).

(** The [try] suite of [calculate_ldl_effect]. *)
Definition calculate_ldl_effect_try (baseline_risk baseline_ldl final_ldl : T) : Exc T :=
  (ldl_reduction <- val baseline_ldl - val final_ldl ;;
   rrr <- lift2 py_min (int 22 * val ldl_reduction) (int 60) ;;
   val baseline_risk * (int 1 - val rrr / int 100))%py.

Definition calculate_ldl_effect (baseline_risk baseline_ldl final_ldl : T) : UI T T :=
  try_except
    (run (calculate_ldl_effect_try baseline_risk baseline_ldl final_ldl))
    (fun e =>
       (emit (st_error ("Error calculating LDL effect: " ++ exn_str e)) ;;
        ui_ret baseline_risk)%ui).

Definition calculate_ldl_reduction (current_ldl : T) (pre_statin discharge_statin : string)
    (discharge_add_ons : list string) : Exc (T * T) :=
  (let statin_reduction := int (dict_get "reduction" (dict_get discharge_statin LDL_THERAPIES []) 0%Z) in
   statin_reduction <-
     (if negb (pre_statin =? "None") then statin_reduction * lit 0.5
      else statin_reduction) ;;
   let total_reduction := statin_reduction in
   total_reduction <-
     (if py_in "Ezetimibe" discharge_add_ons then val total_reduction + int 20
      else val total_reduction) ;;
   total_reduction <-
     (if py_in "PCSK9 inhibitor" discharge_add_ons then val total_reduction + int 60
      else val total_reduction) ;;
   total_reduction <-
     (if py_in "Inclisiran" discharge_add_ons then val total_reduction + int 50
      else val total_reduction) ;;
   projected_ldl <- val current_ldl * (int 1 - val total_reduction / int 100) ;;
   ret (projected_ldl, total_reduction))%py.

Definition generate_recommendations (final_risk : T) : Exc string :=
  (very_high <- py_ge final_risk (of_int 30) ;;
   if very_high : bool then
     ret "🔴 Very High Risk: High-intensity statin, PCSK9 inhibitor, SBP <130 mmHg."
   else
     high <- py_ge final_risk (of_int 20) ;;
     if high : bool then
       ret "🟠 High Risk: Moderate-intensity statin, SBP <130 mmHg."
     else
       ret "🟢 Moderate Risk: Lifestyle adherence, annual reassessment.")%py.

(** ** PDF report generation *)

(** The report is kept as the values it prints.  FPDF sets the text in a
    core font (Arial), which takes latin-1 text only: each text printed by
    [cell] or [multi_cell] is encoded as latin-1, as are the pages by
    [pdf.output(dest='S').encode('latin1')], so a text with a character
    beyond U+00FF makes the call raise [UnicodeEncodeError].  The texts
    the function prints are the fixed labels and the formatted numbers,
    which are ASCII, and the name, the sex and the recommendations. *)
Definition create_pdf_report (name : string) (age : Z) (sex : string)
    (baseline_risk final_risk current_ldl ldl_target : T) (recommendations : string)
    : Exc (pdf_report T) :=
  if latin1_encodable name && latin1_encodable sex && latin1_encodable recommendations
  then
    ret {| report_name := name; report_age := age; report_sex := sex;
           report_baseline_risk := baseline_risk; report_final_risk := final_risk;
           report_current_ldl := current_ldl; report_ldl_target := ldl_target;
           report_recommendations := recommendations |}
  else raise latin1_error.

(** ** Main logic *)

(** The values of the input widgets of one run of the script: the sidebar,
    the treatment selectors, the two buttons and the name field. *)
Record session : Type := {
  age : Z;
  sex : string;
  diabetes : bool;
  smoker : bool;
  cad : bool;
  stroke : bool;
  pad : bool;
  total_chol : T;
  hdl : T;
  ldl : T;
  sbp : Z;
  egfr : Z;
  crp : T;
  pre_statin : string;
  discharge_statin : string;
  discharge_add_ons : list string;
  target_ldl : T;
  calculate_clicked : bool;
  patient_name : string;
  generate_clicked : bool
}.

(** [sum([cad, stroke, pad])] *)
Definition vasc_count (w : session) : Z :=
  (Z.b2z (cad w) + Z.b2z (stroke w) + Z.b2z (pad w))%Z.

(** Truthiness of what [calculate_smart_risk] returns: [None] and zero are
    false. *)
Definition truthy (r : option T) : bool :=
  match r with
  | None => false
  | Some x => py_bool x
  end.

(** The treatment steps: what the script does once "Calculate Treatment
    Impact" is clicked. *)
Definition treatment_impact (w : session) (baseline_risk : T) : UI T unit :=
  (pl <- run (calculate_ldl_reduction (ldl w) (pre_statin w) (discharge_statin w)
                (discharge_add_ons w)) ;;
   let '(projected_ldl, total_reduction) := pl in
   final_risk <- calculate_ldl_effect baseline_risk (ldl w) projected_ldl ;;
   recommendations <- run (generate_recommendations final_risk) ;;
   emit (st_metric "Projected LDL-C" projected_ldl total_reduction) ;;
   absolute <- run (py_sub baseline_risk final_risk) ;;
   emit (st_metric "Post-Treatment Risk" final_risk absolute) ;;
   emit (st_subheader "Clinical Recommendations") ;;
   emit (st_write recommendations) ;;
   if generate_clicked w && negb (patient_name w =? "") then
     pdf_bytes <- run (create_pdf_report (patient_name w) (age w) (sex w) baseline_risk
                         final_risk (ldl w) (target_ldl w) recommendations) ;;
     emit (st_download_button "⬇️ Download Report" pdf_bytes
             (replace_space (patient_name w) ++ "_CVD_Report.pdf"))
   else ui_ret tt)%ui.

Definition main_logic (w : session) : UI T unit :=
  (baseline_risk <- calculate_smart_risk (age w) (sex w) (sbp w) (total_chol w)
                      (hdl w) (smoker w) (diabetes w) (egfr w) (crp w)
                      (vasc_count w) ;;
   match baseline_risk with
   | Some risk =>
       if py_bool risk then
         emit (st_success "Baseline 10-Year Risk" risk) ;;
         if calculate_clicked w then treatment_impact w risk else ui_ret tt
       else emit (st_warning "Please complete all patient data to calculate risk.")
   | None => emit (st_warning "Please complete all patient data to calculate risk.")
   end)%ui.

End Calculation.

(** ** Real numbers

    The numbers of the specification: arithmetic is exact, [math.log] is
    defined on the positive numbers only, division by zero raises. *)

Definition Rltb (x y : R) : bool := if Rlt_dec x y then true else false.

Definition Rleb (x y : R) : bool := if Rle_dec x y then true else false.

(** Rounding to the nearest integer, a tie to the even one, as [round]
    does. *)
Definition round_half_even (x : R) : Z :=
  let n := Zfloor x in
  let f := (x - IZR n)%R in
  if Rlt_dec f (1 / 2) then n
  else if Rlt_dec (1 / 2) f then (n + 1)%Z
  else if Z.even n then n else (n + 1)%Z.

(** [round(x, ndigits)] *)
Definition Rround (x : R) (ndigits : Z) : R :=
  (IZR (round_half_even (x * powerRZ 10 ndigits)) / powerRZ 10 ndigits)%R.

(** [x ** y] on real numbers.  A negative base has a real power at
    integer exponents only; the program's base is the literal 0.900. *)
Definition Rpow (x y : R) : Exc R :=
  if Rlt_dec 0 x then ret (Rpower x y)
  else if Req_dec_T x 0 then
    if Rlt_dec y 0 then raise (ZeroDivisionError "0.0 cannot be raised to a negative power")
    else if Req_dec_T y 0 then ret 1%R else ret 0%R
  else if Req_dec_T (IZR (Zfloor y)) y then
    ret (if Z.even (Zfloor y) then Rpower (- x) y else - Rpower (- x) y)%R
  else raise (TypeError "type complex doesn't define __round__ method").

#[export] Instance real_num : PyNum R := {
  of_int := IZR;
  of_dec := Q2R;
  py_add x y := ret (x + y)%R;
  py_sub x y := ret (x - y)%R;
  py_mul x y := ret (x * y)%R;
  py_div x y :=
    if Req_dec_T y 0 then raise (ZeroDivisionError "float division by zero")
    else ret (x / y)%R;
  py_lt x y := ret (Rltb x y);
  py_gt x y := ret (Rltb y x);
  py_ge x y := ret (Rleb y x);
  py_bool x := if Req_dec_T x 0 then false else true
}.

(** The least magnitude that rounds to a binary64 infinity: the largest
    float, [2^1024 - 2^971], plus half a unit in its last place. *)
Definition binary64_overflow : R := IZR (2 ^ 1024 - 2 ^ 970).

(** [math.exp] raises when its result is out of the binary64 range. *)
#[export] Instance real_math : PyMath R := {
  math_log x :=
    if Rlt_dec 0 x then ret (ln x) else raise (ValueError "math domain error");
  math_exp x :=
    if Rle_dec binary64_overflow (exp x) then raise (OverflowError "math range error")
    else ret (exp x);
  py_pow := Rpow;
  py_round x ndigits := ret (Rround x ndigits)
}.

(** The linear predictor and the risk of section 4.2 of the specification,
    in its words. *)
Definition linear_predictor (age : Z) (sex : string) (sbp : Z) (total_chol hdl : R)
    (smoker diabetes : bool) (egfr : Z) (crp : R) (vasc_count : Z) : R :=
  (0.064 * IZR age + 0.34 * (if sex =? "Male" then 1 else 0) + 0.02 * IZR sbp
   + 0.25 * total_chol - 0.25 * hdl
   + 0.44 * (if smoker then 1 else 0) + 0.51 * (if diabetes then 1 else 0)
   - 0.2 * (IZR egfr / 10) + 0.25 * ln (crp + 1) + 0.4 * IZR vasc_count)%R.

Definition risk10 (lp : R) : R := (1 - Rpower 0.900 (exp (lp - 5.8)))%R.

Definition clamp (lo hi x : R) : R := Rmax lo (Rmin hi x).

Definition baseline_risk_percent (lp : R) : R :=
  clamp 1 99 (Rround (risk10 lp * 100) 1).

(** The therapy catalog of section 4.1 and the total reduction of section
    4.3 of the specification, in its words. *)
Definition catalog_lookup (identifier : string) : R :=
  if identifier =? "Atorvastatin 20 mg" then 40%R
  else if identifier =? "Atorvastatin 80 mg" then 50%R
  else if identifier =? "Rosuvastatin 10 mg" then 45%R
  else if identifier =? "Rosuvastatin 20 mg" then 55%R
  else 0%R.

Definition total_reduction_percent (current_therapy prescribed_therapy : string)
    (add_ons : list string) : R :=
  ((if current_therapy =? "None" then catalog_lookup prescribed_therapy
    else catalog_lookup prescribed_therapy / 2)
   + (if py_in "Ezetimibe" add_ons then 20 else 0)
   + (if py_in "PCSK9 inhibitor" add_ons then 60 else 0)
   + (if py_in "Inclisiran" add_ons then 50 else 0))%R.

(** The three recommendation texts. *)
Definition very_high_risk : string :=
  "🔴 Very High Risk: High-intensity statin, PCSK9 inhibitor, SBP <130 mmHg.".

Definition high_risk : string :=
  "🟠 High Risk: Moderate-intensity statin, SBP <130 mmHg.".

Definition moderate_risk : string :=
  "🟢 Moderate Risk: Lifestyle adherence, annual reassessment.".




(** ** Python objects over binary64 floats

    The values the functions meet at run time: a [float] (IEEE-754
    binary64, as Rocq's primitive floats) or [None].  The program's [int]
    constants are small and converted exactly. *)

Inductive pyobj : Type :=
| PyNone
| PyFloat (x : float).

Definition type_name (v : pyobj) : string :=
  match v with
  | PyNone => "NoneType"
  | PyFloat _ => "float"
  end.

Definition unsupported_operand (op : string) (a b : pyobj) : exn :=
  TypeError ("unsupported operand type(s) for " ++ op ++ ": '" ++ type_name a
             ++ "' and '" ++ type_name b ++ "'").

Definition not_supported_between (op : string) (a b : pyobj) : exn :=
  TypeError ("'" ++ op ++ "' not supported between instances of '" ++ type_name a
             ++ "' and '" ++ type_name b ++ "'").

(** [float(z)] for an [int], rounded to nearest. *)
Definition float_of_Z (z : Z) : float :=
  SF2Prim (binary_normalize prec emax z 0 false).

(** A decimal literal [n/10^k]: the quotient of two exact floats is the
    correctly rounded value the parser gives. *)
Definition float_of_dec (q : Q) : float :=
  (float_of_Z (Qnum q) / float_of_Z (Zpos (Qden q)))%float.

Definition float_binop (op : string) (f : float -> float -> float) (a b : pyobj) : Exc pyobj :=
  match a, b with
  | PyFloat x, PyFloat y => ret (PyFloat (f x y))
  | _, _ => raise (unsupported_operand op a b)
  end.

Definition float_div (a b : pyobj) : Exc pyobj :=
  match a, b with
  | PyFloat x, PyFloat y =>
      if (y =? 0)%float then raise (ZeroDivisionError "float division by zero")
      else ret (PyFloat (x / y)%float)
  | _, _ => raise (unsupported_operand "/" a b)
  end.

Definition float_cmp (op : string) (f : float -> float -> bool) (a b : pyobj) : Exc bool :=
  match a, b with
  | PyFloat x, PyFloat y => ret (f x y)
  | _, _ => raise (not_supported_between op a b)
  end.

#[export] Instance float_num : PyNum pyobj := {
  of_int z := PyFloat (float_of_Z z);
  of_dec q := PyFloat (float_of_dec q);
  py_add := float_binop "+" PrimFloat.add;
  py_sub := float_binop "-" PrimFloat.sub;
  py_mul := float_binop "*" PrimFloat.mul;
  py_div := float_div;
  py_lt := float_cmp "<" PrimFloat.ltb;
  py_gt := float_cmp ">" (fun x y => PrimFloat.ltb y x);
  py_ge := float_cmp ">=" (fun x y => PrimFloat.leb y x);
  py_bool v :=
    match v with
    | PyNone => false
    | PyFloat x => negb (x =? 0)%float
    end
}.

(** The ranges the input layer validates before it calls the baseline
    estimator: age 30-100, SBP 90-220, total cholesterol 2.0-10.0, HDL
    0.5-3.0, eGFR 15-120, CRP at least 0.1 and the sum of three checkboxes.
    The input layer keeps CRP up to 20.0; here it is any binary64 value,
    which is below 2^1024.  Either sex and any smoker and diabetes flags
    are valid. *)
Definition valid_profile (age sbp : Z) (total_chol hdl : R) (egfr : Z) (crp : R)
    (vasc_count : Z) : Prop :=
  (30 <= age <= 100)%Z /\ (90 <= sbp <= 220)%Z
  /\ (2 <= total_chol <= 10)%R /\ (0.5 <= hdl <= 3)%R
  /\ (15 <= egfr <= 120)%Z /\ (0.1 <= crp < IZR (2 ^ 1024))%R
  /\ (0 <= vasc_count <= 3)%Z.


(** A run with a total cholesterol far above the range of the input
    layer, for which [math.exp] overflows. *)
Definition overflow_session : session (T := R) :=
  {| age := 65; sex := "Male"; diabetes := false; smoker := false;
     cad := false; stroke := false; pad := false;
     total_chol := 5000%R; hdl := 1.0%R; ldl := 3.5%R; sbp := 140; egfr := 80;
     crp := 2.0%R;
     pre_statin := "None"; discharge_statin := "Atorvastatin 80 mg";
     discharge_add_ons := []; target_ldl := 1.4%R;
     calculate_clicked := true; patient_name := "A B"; generate_clicked := true |}.

(** A run with the profile of the specification's golden fixture, before
    any button is clicked. *)
Definition fixture_session : session (T := R) :=
  {| age := 65; sex := "Male"; diabetes := false; smoker := false;
     cad := false; stroke := false; pad := false;
     total_chol := 5.0%R; hdl := 1.0%R; ldl := 3.5%R; sbp := 140; egfr := 80;
     crp := 2.0%R;
     pre_statin := "None"; discharge_statin := "Atorvastatin 80 mg";
     discharge_add_ons := []; target_ldl := 1.4%R;
     calculate_clicked := false; patient_name := ""; generate_clicked := false |}.

(** The golden fixture with a treatment chosen and both buttons clicked. *)
Definition treated_session : session (T := R) :=
  {| age := 65; sex := "Male"; diabetes := false; smoker := false;
     cad := false; stroke := false; pad := false;
     total_chol := 5.0%R; hdl := 1.0%R; ldl := 3.5%R; sbp := 140; egfr := 80;
     crp := 2.0%R;
     pre_statin := "None"; discharge_statin := "Rosuvastatin 20 mg";
     discharge_add_ons := ["Ezetimibe"]; target_ldl := 1.4%R;
     calculate_clicked := true; patient_name := "A B"; generate_clicked := true |}.

(** The same run over Python objects, with float inputs. *)
Definition float_session : session (T := pyobj) :=
  {| age := 65; sex := "Male"; diabetes := false; smoker := false;
     cad := false; stroke := false; pad := false;
     total_chol := PyFloat 5.0; hdl := PyFloat 1.0; ldl := PyFloat 3.5;
     sbp := 140; egfr := 80; crp := PyFloat 2.0;
     pre_statin := "None"; discharge_statin := "Rosuvastatin 20 mg";
     discharge_add_ons := ["Ezetimibe"]; target_ldl := PyFloat 1.4;
     calculate_clicked := true; patient_name := "A B"; generate_clicked := true |}.

(** A run over Python objects in which the LDL-C value is missing. *)
Definition missing_ldl_session : session (T := pyobj) :=
  {| age := 65; sex := "Male"; diabetes := false; smoker := false;
     cad := false; stroke := false; pad := false;
     total_chol := PyFloat 5.0; hdl := PyFloat 1.0; ldl := PyNone;
     sbp := 140; egfr := 80; crp := PyFloat 2.0;
     pre_statin := "None"; discharge_statin := "Atorvastatin 80 mg";
     discharge_add_ons := []; target_ldl := PyFloat 1.4;
     calculate_clicked := true; patient_name := ""; generate_clicked := false |}.

(** A run with another value of the "LDL-C Target" slider. *)
Definition with_target_ldl {T : Type} (w : session (T := T)) (target : T) : session (T := T) :=
  {| age := age w; sex := sex w; diabetes := diabetes w; smoker := smoker w;
     cad := cad w; stroke := stroke w; pad := pad w;
     total_chol := total_chol w; hdl := hdl w; ldl := ldl w; sbp := sbp w;
     egfr := egfr w; crp := crp w;
     pre_statin := pre_statin w; discharge_statin := discharge_statin w;
     discharge_add_ons := discharge_add_ons w; target_ldl := target;
     calculate_clicked := calculate_clicked w; patient_name := patient_name w;
     generate_clicked := generate_clicked w |}.

Definition is_download {T : Type} (ev : ui_event T) : bool :=
  match ev with
  | st_download_button _ _ _ => true
  | _ => false
  end.

(** What is shown apart from the download button. *)
Definition without_download {T : Type} (shown : list (ui_event T)) : list (ui_event T) :=
  filter (fun ev => negb (is_download ev)) shown.

(** The tiers in rising order: moderate, high, very high. *)
Definition tier_rank (text : string) : nat :=
  if text =? very_high_risk then 2 else if text =? high_risk then 1 else 0.

Unset Implicit Arguments.

(** * Properties over the real numbers *)

Section RealNumbers.

Local Open Scope R_scope.

(** ** [min], [max] and the baseline estimator in closed form *)

Lemma if_Rltb_min (a b : R) : (if Rltb b a then b else a) = Rmin a b.
Proof.
  unfold Rltb, Rmin. destruct (Rlt_dec b a), (Rle_dec a b); lra.
Qed.

Lemma if_Rltb_max (a b : R) : (if Rltb a b then b else a) = Rmax a b.
Proof.
  unfold Rltb, Rmax. destruct (Rlt_dec a b), (Rle_dec a b); lra.
Qed.

Lemma py_min_real (a b : R) : py_min a b = ret (Rmin a b).
Proof. unfold py_min; cbn. now rewrite if_Rltb_min. Qed.

Lemma py_max_real (a b : R) : py_max a b = ret (Rmax a b).
Proof. unfold py_max; cbn. now rewrite if_Rltb_max. Qed.

Lemma IZR_if (b : bool) : IZR (if b then 1%Z else 0%Z) = if b then 1 else 0.
Proof. now destruct b. Qed.

(** When [crp + 1] is positive [math.log] returns, and the [try] suite
    runs to its [return] unless [math.exp] overflows: the result is then
    the clamped, rounded risk of the specification's formula. *)
Lemma smart_risk_try_exp age sex sbp total_chol hdl smoker diabetes egfr crp vasc_count :
  0 < crp + 1 ->
  calculate_smart_risk_try age sex sbp total_chol hdl smoker diabetes egfr crp vasc_count
  = let lp := linear_predictor age sex sbp total_chol hdl smoker diabetes egfr crp vasc_count in
    if Rle_dec binary64_overflow (exp (lp - 5.8))
    then raise (OverflowError "math range error")
    else ret (Some (baseline_risk_percent lp)).
Proof.
  intros Hc. unfold calculate_smart_risk_try.
  cbn.
  destruct (Rlt_dec 0 (crp + 1)) as [_|]; [|contradiction].
  destruct (Req_dec_T 10 0) as [H10|_]; [lra|].
  cbn.
  match goal with
  | |- context [exp ?a] =>
      replace a with (linear_predictor age sex sbp total_chol hdl smoker diabetes egfr crp
                        vasc_count - 5.8)
        by (unfold linear_predictor; rewrite !IZR_if; lra)
  end.
  cbv zeta.
  destruct (Rle_dec binary64_overflow _) as [Hov|Hov]; [reflexivity|].
  cbn. unfold Rpow.
  destruct (Rlt_dec 0 0.900) as [_|H9]; [|lra].
  cbn.
  rewrite if_Rltb_min, if_Rltb_max.
  unfold baseline_risk_percent, clamp, risk10.
  do 2 f_equal.
  repeat (f_equal; try lra).
Qed.


Lemma calculate_smart_risk_real age sex sbp total_chol hdl smoker diabetes egfr crp vasc_count :
  0 < crp + 1 ->
  exp (linear_predictor age sex sbp total_chol hdl smoker diabetes egfr crp vasc_count - 5.8)
  < binary64_overflow ->
  calculate_smart_risk age sex sbp total_chol hdl smoker diabetes egfr crp vasc_count
  = ([], ret (Some (baseline_risk_percent
                      (linear_predictor age sex sbp total_chol hdl smoker diabetes
                         egfr crp vasc_count)))).
Proof.
  intros Hc Hov. unfold calculate_smart_risk.
  rewrite smart_risk_try_exp by assumption. cbv zeta.
  destruct (Rle_dec binary64_overflow _) as [H|_]; [lra|]. reflexivity.
Qed.

Lemma calculate_smart_risk_overflow age sex sbp total_chol hdl smoker diabetes egfr crp vasc_count :
  0 < crp + 1 ->
  binary64_overflow
  <= exp (linear_predictor age sex sbp total_chol hdl smoker diabetes egfr crp vasc_count - 5.8) ->
  calculate_smart_risk age sex sbp total_chol hdl smoker diabetes egfr crp vasc_count
  = ([st_error "Error calculating risk: math range error"], ret None).
Proof.
  intros Hc Hov. unfold calculate_smart_risk.
  rewrite smart_risk_try_exp by assumption. cbv zeta.
  destruct (Rle_dec binary64_overflow _) as [_|H]; [|contradiction]. reflexivity.
Qed.


(** ** Rounding and clamping are monotone *)

Lemma round_half_even_mono (x y : R) :
  x <= y -> (round_half_even x <= round_half_even y)%Z.
Proof.
  intros Hxy. unfold round_half_even.
  pose proof (Zfloor_bound x) as [Hx1 Hx2].
  pose proof (Zfloor_bound y) as [Hy1 Hy2].
  pose proof (Zfloor_le x y Hxy) as Hn.
  destruct (Z.eq_dec (Zfloor x) (Zfloor y)) as [E|NE].
  - rewrite E in *.
    destruct (Rlt_dec (x - IZR (Zfloor y)) (1 / 2)),
             (Rlt_dec (y - IZR (Zfloor y)) (1 / 2)),
             (Rlt_dec (1 / 2) (x - IZR (Zfloor y))),
             (Rlt_dec (1 / 2) (y - IZR (Zfloor y))),
             (Z.even (Zfloor y)); try lia; try lra.
  - assert (Zfloor x + 1 <= Zfloor y)%Z by lia.
    destruct (Rlt_dec (x - IZR (Zfloor x)) (1 / 2)),
             (Rlt_dec (y - IZR (Zfloor y)) (1 / 2)),
             (Rlt_dec (1 / 2) (x - IZR (Zfloor x))),
             (Rlt_dec (1 / 2) (y - IZR (Zfloor y))),
             (Z.even (Zfloor x)), (Z.even (Zfloor y)); lia.
Qed.

Lemma Rround_mono (n : Z) (x y : R) : x <= y -> Rround x n <= Rround y n.
Proof.
  intros Hxy. unfold Rround.
  assert (Hp : 0 < powerRZ 10 n) by (apply powerRZ_lt; lra).
  apply Rmult_le_compat_r.
  - left. now apply Rinv_0_lt_compat.
  - apply IZR_le, round_half_even_mono.
    apply Rmult_le_compat_r; lra.
Qed.

Lemma ln_0_9_neg : ln 0.900 < 0.
Proof.
  rewrite <- ln_1. apply ln_increasing; lra.
Qed.

Lemma risk10_mono (lp lp' : R) : lp <= lp' -> risk10 lp <= risk10 lp'.
Proof.
  intros H. unfold risk10, Rpower.
  assert (exp (lp - 5.8) <= exp (lp' - 5.8)).
  { destruct H as [H|H]; [left; apply exp_increasing; lra | right; now rewrite H]. }
  pose proof ln_0_9_neg.
  assert (exp (exp (lp' - 5.8) * ln 0.900) <= exp (exp (lp - 5.8) * ln 0.900)).
  { assert (exp (lp' - 5.8) * ln 0.900 <= exp (lp - 5.8) * ln 0.900) as [Hlt|Heq] by nra.
    - left. now apply exp_increasing.
    - right. now rewrite Heq. }
  lra.
Qed.

Lemma clamp_mono (lo hi x y : R) : x <= y -> clamp lo hi x <= clamp lo hi y.
Proof.
  intros H. unfold clamp.
  assert (Rmin hi x <= Rmin hi y)
    by (unfold Rmin; destruct (Rle_dec hi x), (Rle_dec hi y); lra).
  unfold Rmax; destruct (Rle_dec lo (Rmin hi x)), (Rle_dec lo (Rmin hi y)); lra.
Qed.

Lemma clamp_range (lo hi x : R) : lo <= hi -> lo <= clamp lo hi x <= hi.
Proof.
  intros H. unfold clamp.
  assert (Rmin hi x <= hi) by apply Rmin_l.
  unfold Rmax; destruct (Rle_dec lo (Rmin hi x)); lra.
Qed.

Lemma baseline_risk_percent_mono (lp lp' : R) :
  lp <= lp' -> baseline_risk_percent lp <= baseline_risk_percent lp'.
Proof.
  intros H. unfold baseline_risk_percent.
  apply clamp_mono, Rround_mono.
  pose proof (risk10_mono _ _ H). lra.
Qed.

Lemma linear_predictor_mono age age' sex sbp sbp' total_chol total_chol' hdl hdl'
    smoker smoker' diabetes diabetes' egfr crp vasc_count vasc_count' :
  (age <= age')%Z -> (sbp <= sbp')%Z -> total_chol <= total_chol' -> hdl' <= hdl ->
  Bool.le smoker smoker' -> Bool.le diabetes diabetes' ->
  (vasc_count <= vasc_count')%Z ->
  linear_predictor age sex sbp total_chol hdl smoker diabetes egfr crp vasc_count
  <= linear_predictor age' sex sbp' total_chol' hdl' smoker' diabetes' egfr crp vasc_count'.
Proof.
  intros Ha Hs Hc Hh Hsm Hd Hv. unfold linear_predictor.
  apply IZR_le in Ha, Hs, Hv.
  assert ((if smoker then 1 else 0) <= (if smoker' then 1 else 0))
    by (destruct smoker, smoker'; simpl in Hsm; try discriminate; lra).
  assert ((if diabetes then 1 else 0) <= (if diabetes' then 1 else 0))
    by (destruct diabetes, diabetes'; simpl in Hd; try discriminate; lra).
  lra.
Qed.

(** ** The exponential stays in range on valid profiles *)

Lemma exp_INR (n : nat) : exp (INR n) = exp 1 ^ n.
Proof.
  induction n as [|n IH].
  - cbn. apply exp_0.
  - rewrite S_INR, exp_plus, IH. cbn. ring.
Qed.

Lemma exp_le_pow3 (n : nat) (x : R) : x <= INR n -> exp x <= 3 ^ n.
Proof.
  intros H.
  apply Rle_trans with (exp (INR n)).
  - destruct H as [H|H]; [left; now apply exp_increasing | right; now rewrite H].
  - rewrite exp_INR. apply pow_incr. split; [left; apply exp_pos | apply exp_le_3].
Qed.

Lemma pow2_le_exp (n : nat) (x : R) : INR n <= x -> 2 ^ n <= exp x.
Proof.
  intros H.
  apply Rle_trans with (exp (INR n)).
  - rewrite exp_INR. apply pow_incr. split; [lra|].
    pose proof (exp_ineq1 1). lra.
  - destruct H as [H|H]; [left; now apply exp_increasing | right; now rewrite H].
Qed.

Lemma ln_le_log2 (n : nat) (y : R) : 0 < y -> y <= 2 ^ n -> ln y <= INR n.
Proof.
  intros Hy H.
  rewrite <- (ln_exp (INR n)).
  assert (y <= exp (INR n)) as [Hlt|Heq].
  { eapply Rle_trans; [exact H|]. apply pow2_le_exp. lra. }
  - left. now apply ln_increasing.
  - right. now rewrite Heq.
Qed.

Lemma exp_266_in_range (x : R) : x <= 266 -> exp x < binary64_overflow.
Proof.
  intros H.
  apply Rle_lt_trans with (3 ^ 266).
  - apply exp_le_pow3. replace (INR 266) with 266 by (rewrite INR_IZR_INZ; reflexivity).
    exact H.
  - unfold binary64_overflow. rewrite (pow_IZR 3 266).
    apply IZR_lt. vm_compute. reflexivity.
Qed.

(** On a valid profile the argument of [math.exp] is at most 266: the
    logarithm of a binary64 CRP is below 1025. *)
Lemma valid_profile_predictor age sex sbp total_chol hdl smoker diabetes egfr crp vasc_count :
  valid_profile age sbp total_chol hdl egfr crp vasc_count ->
  linear_predictor age sex sbp total_chol hdl smoker diabetes egfr crp vasc_count - 5.8 <= 266.
Proof.
  intros ((Ha1 & Ha2) & (Hs1 & Hs2) & Hc & Hh & (He1 & He2) & (Hc1 & Hc2) & (Hv1 & Hv2)).
  assert (Hln : ln (crp + 1) <= 1025).
  { replace 1025 with (INR 1025) by (rewrite INR_IZR_INZ; reflexivity).
    apply ln_le_log2; [lra|].
    rewrite (pow_IZR 2 1025).
    apply Rle_trans with (IZR (2 ^ 1024) + 1); [lra|].
    rewrite <- plus_IZR. apply IZR_le. vm_compute. discriminate. }
  apply IZR_le in Ha2, Hs2, He1, Hv2.
  unfold linear_predictor.
  destruct (sex =? "Male"), smoker, diabetes; lra.
Qed.

Lemma calculate_smart_risk_valid age sex sbp total_chol hdl smoker diabetes egfr crp vasc_count :
  valid_profile age sbp total_chol hdl egfr crp vasc_count ->
  calculate_smart_risk age sex sbp total_chol hdl smoker diabetes egfr crp vasc_count
  = ([], ret (Some (baseline_risk_percent
                      (linear_predictor age sex sbp total_chol hdl smoker diabetes
                         egfr crp vasc_count)))).
Proof.
  intros H. apply calculate_smart_risk_real.
  - destruct H as (_ & _ & _ & _ & _ & Hc & _). lra.
  - apply exp_266_in_range. now apply valid_profile_predictor.
Qed.

(** The ranges of the input layer, CRP up to 20.0 included, make a valid
    profile. *)
Lemma input_layer_valid (age sbp : Z) (total_chol hdl : R) (egfr : Z) (crp : R)
    (vasc_count : Z) :
  (30 <= age <= 100)%Z -> (90 <= sbp <= 220)%Z -> 2 <= total_chol <= 10 ->
  0.5 <= hdl <= 3 -> (15 <= egfr <= 120)%Z -> 0.1 <= crp <= 20 ->
  (0 <= vasc_count <= 3)%Z ->
  valid_profile age sbp total_chol hdl egfr crp vasc_count.
Proof.
  intros Ha Hs Hc Hh He Hcrp Hv. unfold valid_profile.
  assert (IZR 20 < IZR (2 ^ 1024)) by (apply IZR_lt; vm_compute; reflexivity).
  repeat split; try tauto; try lia; lra.
Qed.

(** ** The baseline estimator *)

(** C2: for every valid profile (age 30-100, SBP 90-220, eGFR 15-120,
    crp >= 0.1, vascular disease count 0-3, total cholesterol and HDL in
    the ranges of the input layer, either sex, any smoker and diabetes
    flags) [calculate_smart_risk] shows no error and returns a number
    between 1.0 and 99.0. *)
Theorem baseline_risk_in_range age sex sbp total_chol hdl smoker diabetes egfr crp vasc_count :
  valid_profile age sbp total_chol hdl egfr crp vasc_count ->
  exists v : R,
    calculate_smart_risk age sex sbp total_chol hdl smoker diabetes egfr crp vasc_count
    = ([], ret (Some v))
    /\ 1 <= v <= 99.
Proof.
  intros H.
  eexists. split.
  - now apply calculate_smart_risk_valid.
  - apply clamp_range. lra.
Qed.

(** C2 at the specification's golden fixture. *)
Lemma baseline_risk_in_range_witness :
  valid_profile 65 140 5.0 1.0 80 2.0 0
  /\ exists v : R,
       calculate_smart_risk 65 "Male" 140 5.0 1.0 false false 80 2.0 0 = ([], ret (Some v))
       /\ 1 <= v <= 99.
Proof.
  assert (H : valid_profile 65 140 5.0 1.0 80 2.0 0)
    by (apply input_layer_valid; try lia; lra).
  split; [exact H | now apply baseline_risk_in_range].
Defined.

(** C6: the baseline risk is monotone on valid profiles: with sex, eGFR and
    CRP fixed, raising age, SBP, total cholesterol or the vascular disease
    count, switching smoker or diabetes on, and lowering HDL never lowers
    the returned risk (so changing one of them alone never does; raising
    HDL alone never raises it).  Both calls return a risk; it is enough
    that the profile with the larger inputs is valid. *)
Theorem baseline_risk_monotone age age' sex sbp sbp' total_chol total_chol' hdl hdl'
    smoker smoker' diabetes diabetes' egfr crp vasc_count vasc_count' :
  valid_profile age' sbp' total_chol' hdl' egfr crp vasc_count' ->
  (age <= age')%Z -> (sbp <= sbp')%Z -> total_chol <= total_chol' -> hdl' <= hdl ->
  Bool.le smoker smoker' -> Bool.le diabetes diabetes' ->
  (vasc_count <= vasc_count')%Z ->
  exists v v' : R,
    calculate_smart_risk age sex sbp total_chol hdl smoker diabetes egfr crp vasc_count
    = ([], ret (Some v))
    /\ calculate_smart_risk age' sex sbp' total_chol' hdl' smoker' diabetes' egfr crp
         vasc_count'
       = ([], ret (Some v'))
    /\ v <= v'.
Proof.
  intros Hvalid Ha Hs Hc Hh Hsm Hd Hv.
  pose proof (linear_predictor_mono age age' sex sbp sbp' total_chol total_chol' hdl hdl'
                smoker smoker' diabetes diabetes' egfr crp vasc_count vasc_count'
                Ha Hs Hc Hh Hsm Hd Hv) as Hlp.
  pose proof (valid_profile_predictor age' sex sbp' total_chol' hdl' smoker' diabetes' egfr
                crp vasc_count' Hvalid) as Hmax.
  assert (Hcrp : 0 < crp + 1) by (destruct Hvalid as (_ & _ & _ & _ & _ & Hcrp & _); lra).
  eexists _, _. split; [|split].
  - apply calculate_smart_risk_real; [assumption|].
    apply exp_266_in_range. lra.
  - now apply calculate_smart_risk_valid.
  - now apply baseline_risk_percent_mono.
Qed.

(** C6 at two valid profiles that differ in every monotone input. *)
Lemma baseline_risk_monotone_witness :
  exists v v' : R,
    calculate_smart_risk 65 "Male" 140 5.0 1.2 false false 80 2.0 0 = ([], ret (Some v))
    /\ calculate_smart_risk 66 "Male" 150 5.5 1.0 true true 80 2.0 1 = ([], ret (Some v'))
    /\ v <= v'.
Proof.
  apply baseline_risk_monotone; try lia; try lra; try exact I.
  apply input_layer_valid; try lia; lra.
Defined.

(** ** The treatment effect model *)

(** The nested [LDL_THERAPIES.get(..., {}).get("reduction", 0)] is the
    catalog lookup of the specification. *)
Lemma catalog_lookup_dict (identifier : string) :
  IZR (dict_get "reduction" (dict_get identifier LDL_THERAPIES []) 0%Z)
  = catalog_lookup identifier.
Proof.
  unfold catalog_lookup, LDL_THERAPIES. cbn [dict_get].
  repeat match goal with
         | |- context [String.eqb identifier ?k] => destruct (String.eqb identifier k)
         end; reflexivity.
Qed.

Lemma catalog_lookup_range (identifier : string) : 0 <= catalog_lookup identifier <= 55.
Proof.
  unfold catalog_lookup.
  repeat match goal with
         | |- context [String.eqb identifier ?k] => destruct (String.eqb identifier k)
         end; lra.
Qed.

Lemma calculate_ldl_reduction_real (current_ldl : R) (pre_statin discharge_statin : string)
    (discharge_add_ons : list string) :
  let t := total_reduction_percent pre_statin discharge_statin discharge_add_ons in
  calculate_ldl_reduction current_ldl pre_statin discharge_statin discharge_add_ons
  = ret (current_ldl * (1 - t / 100), t).
Proof.
  unfold calculate_ldl_reduction, total_reduction_percent, int.
  change (@of_int R real_num) with IZR.
  rewrite catalog_lookup_dict.
  set (c := catalog_lookup discharge_statin).
  destruct (pre_statin =? "None"),
           (py_in "Ezetimibe" discharge_add_ons),
           (py_in "PCSK9 inhibitor" discharge_add_ons),
           (py_in "Inclisiran" discharge_add_ons); cbn;
    destruct (Req_dec_T 100 0) as [H|_]; try lra; cbn;
    unfold ret; do 2 f_equal; lra.
Qed.

Lemma total_reduction_percent_range (pre_statin discharge_statin : string)
    (discharge_add_ons : list string) :
  0 <= total_reduction_percent pre_statin discharge_statin discharge_add_ons <= 185.
Proof.
  unfold total_reduction_percent.
  pose proof (catalog_lookup_range discharge_statin).
  destruct (pre_statin =? "None"),
           (py_in "Ezetimibe" discharge_add_ons),
           (py_in "PCSK9 inhibitor" discharge_add_ons),
           (py_in "Inclisiran" discharge_add_ons); lra.
Qed.

(** C1, as stated, fails: with no current therapy, Rosuvastatin 20 mg and
    the add-ons Ezetimibe and PCSK9 inhibitor the total reduction is
    55 + 20 + 60 = 135 percent, and the projected LDL of a patient at
    3.5 mmol/L is negative. *)
Lemma projected_ldl_negative :
  exists p t : R,
    calculate_ldl_reduction 3.5 "None" "Rosuvastatin 20 mg" ["Ezetimibe"; "PCSK9 inhibitor"]
    = ret (p, t)
    /\ t = 135 /\ 0 < 3.5 /\ p < 0.
Proof.
  eexists _, _. split; [apply calculate_ldl_reduction_real|].
  unfold total_reduction_percent, catalog_lookup; cbn.
  repeat split; lra.
Qed.

(** C1, amended: for a positive current LDL the projected LDL is
    non-negative exactly when the total reduction is at most 100 percent.
    The total is not capped: it lies between 0 and 185.  It is at most 75,
    and the projected LDL positive, whenever neither PCSK9 inhibitor nor
    Inclisiran is among the add-ons. *)
Theorem projected_ldl_sign (current_ldl : R) (pre_statin discharge_statin : string)
    (discharge_add_ons : list string) :
  0 < current_ldl ->
  exists p t : R,
    calculate_ldl_reduction current_ldl pre_statin discharge_statin discharge_add_ons
    = ret (p, t)
    /\ 0 <= t <= 185
    /\ (0 <= p <-> t <= 100)
    /\ (py_in "PCSK9 inhibitor" discharge_add_ons = false ->
        py_in "Inclisiran" discharge_add_ons = false ->
        t <= 75 /\ 0 < p).
Proof.
  intros Hpos. eexists _, _. split; [apply calculate_ldl_reduction_real|].
  pose proof (total_reduction_percent_range pre_statin discharge_statin discharge_add_ons) as Ht.
  set (t := total_reduction_percent pre_statin discharge_statin discharge_add_ons) in *.
  split; [exact Ht|]. split.
  - split; intros H; nra.
  - intros Hp Hi.
    assert (t <= 75).
    { subst t. unfold total_reduction_percent. rewrite Hp, Hi.
      pose proof (catalog_lookup_range discharge_statin).
      destruct (pre_statin =? "None"), (py_in "Ezetimibe" discharge_add_ons); lra. }
    split; [assumption | nra].
Qed.

(** C1, amended, at a statin with Ezetimibe. *)
Lemma projected_ldl_sign_witness :
  0 < 3.5
  /\ exists p t : R,
       calculate_ldl_reduction 3.5 "None" "Rosuvastatin 20 mg" ["Ezetimibe"] = ret (p, t)
       /\ 0 <= t <= 185
       /\ (0 <= p <-> t <= 100)
       /\ (py_in "PCSK9 inhibitor" ["Ezetimibe"] = false ->
           py_in "Inclisiran" ["Ezetimibe"] = false ->
           t <= 75 /\ 0 < p).
Proof.
  assert (H : 0 < 3.5) by lra.
  split; [exact H | now apply projected_ldl_sign].
Defined.

(** C3: [calculate_ldl_reduction] returns [current_ldl * (1 - t/100)] and
    [t], where [t] is the catalog reduction of the prescribed therapy (0 for
    an unknown one or "None"), halved when the current therapy is not
    "None", plus 20 for Ezetimibe, 60 for PCSK9 inhibitor and 50 for
    Inclisiran.  For 3.5 mmol/L, a current therapy, Rosuvastatin 20 mg and
    no add-ons the result is 2.5375 and 27.5, over the real numbers and,
    bit for bit, over binary64 floats. *)
Theorem calculate_ldl_reduction_formula :
  (forall (current_ldl : R) (pre_statin discharge_statin : string)
          (discharge_add_ons : list string),
      calculate_ldl_reduction current_ldl pre_statin discharge_statin discharge_add_ons
      = ret (current_ldl
             * (1 - total_reduction_percent pre_statin discharge_statin discharge_add_ons / 100),
             total_reduction_percent pre_statin discharge_statin discharge_add_ons))
  /\ (forall pre_statin : string,
         pre_statin <> "None" ->
         calculate_ldl_reduction 3.5 pre_statin "Rosuvastatin 20 mg" [] = ret (2.5375, 27.5))
  /\ (forall pre_statin : string,
         pre_statin <> "None" ->
         calculate_ldl_reduction (PyFloat 3.5) pre_statin "Rosuvastatin 20 mg" []
         = ret (PyFloat 2.5375, PyFloat 27.5)).
Proof.
  split; [|split].
  - intros. apply calculate_ldl_reduction_real.
  - intros pre Hpre. rewrite calculate_ldl_reduction_real.
    apply String.eqb_neq in Hpre.
    unfold total_reduction_percent, catalog_lookup. rewrite Hpre. cbn.
    unfold ret. do 2 f_equal; lra.
  - intros pre Hpre. apply String.eqb_neq in Hpre.
    unfold calculate_ldl_reduction. rewrite Hpre.
    vm_compute. reflexivity.
Qed.

(** C4: [calculate_ldl_effect] returns
    [baseline_risk * (1 - rrr/100)] with
    [rrr = min(22 * (baseline_ldl - final_ldl), 60)]; [rrr] is at most 60,
    so for a non-negative baseline risk the result is at least 0.4 times
    the baseline risk. *)
Theorem calculate_ldl_effect_formula (baseline_risk baseline_ldl final_ldl : R) :
  let rrr := Rmin (22 * (baseline_ldl - final_ldl)) 60 in
  calculate_ldl_effect baseline_risk baseline_ldl final_ldl
  = ([], ret (baseline_risk * (1 - rrr / 100)))
  /\ rrr <= 60
  /\ (0 <= baseline_risk -> 0.4 * baseline_risk <= baseline_risk * (1 - rrr / 100)).
Proof.
  intros rrr.
  assert (Hrrr : rrr <= 60) by apply Rmin_r.
  split; [|split].
  - unfold calculate_ldl_effect, calculate_ldl_effect_try. cbn.
    rewrite if_Rltb_min. fold rrr.
    destruct (Req_dec_T 100 0) as [H|_]; [lra|]. reflexivity.
  - exact Hrrr.
  - intros Hr. nra.
Qed.

(** ** The recommendation selector *)

(** C5: [generate_recommendations] is total on the real line and splits it
    into three contiguous tiers: 30 and above is "Very High Risk", from 20
    up to 30 is "High Risk", below 20 is "Moderate Risk"; the boundaries 30
    and 20 fall in the higher tier, and the three texts differ, so every
    risk has exactly one tier. *)
Theorem recommendation_tiers :
  (forall final_risk : R,
      (30 <= final_risk -> generate_recommendations final_risk = ret very_high_risk)
      /\ (20 <= final_risk < 30 -> generate_recommendations final_risk = ret high_risk)
      /\ (final_risk < 20 -> generate_recommendations final_risk = ret moderate_risk))
  /\ generate_recommendations 30 = ret very_high_risk
  /\ generate_recommendations 20 = ret high_risk
  /\ very_high_risk <> high_risk
  /\ high_risk <> moderate_risk
  /\ very_high_risk <> moderate_risk.
Proof.
  assert (H : forall final_risk : R,
      (30 <= final_risk -> generate_recommendations final_risk = ret very_high_risk)
      /\ (20 <= final_risk < 30 -> generate_recommendations final_risk = ret high_risk)
      /\ (final_risk < 20 -> generate_recommendations final_risk = ret moderate_risk)).
  { intros x. unfold generate_recommendations; cbn; unfold Rleb.
    destruct (Rle_dec 30 x), (Rle_dec 20 x); cbn;
      repeat split; intros; try reflexivity; lra. }
  split; [exact H|].
  split; [apply H; lra|].
  split; [apply H; lra|].
  repeat split; discriminate.
Qed.

End RealNumbers.

(** * Properties over binary64 floats *)

Section Binary64.

Local Open Scope Z_scope.

(** Multiplying a finite float by 1.0 rounds to the float itself: the
    product of the mantissa with 2^52 is shifted back by 52 bits with
    nothing lost. *)
Lemma SFmul_one_finite (s : bool) (m : positive) (e : Z) :
  bounded prec emax m e = true ->
  SF64mul (S754_finite s m e) (Prim2SF 1%float) = S754_finite s m e.
Proof.
  intros Hb. unfold bounded, canonical_mantissa in Hb.
  apply andb_prop in Hb as [Hc He].
  apply Z.eqb_eq in Hc.
  change (Prim2SF 1%float) with (S754_finite false 4503599627370496 (-52)).
  unfold SF64mul, SFmul.
  rewrite xorb_false_r, Pos.mul_comm.
  unfold binary_round_aux, shr_fexp.
  cbn [Pos.mul Zdigits2 digits2_pos].
  match goal with
  | |- context [fexp prec emax (Z.pos ?p + (e + -52))] =>
      replace (Z.pos p + (e + -52)) with (Z.pos (digits2_pos m) + e)
        by (rewrite !Pos2Z.inj_succ; lia)
  end.
  rewrite Hc.
  replace (e - (e + -52)) with 52 by lia.
  cbn [shr shr_record_of_loc iter_pos shr_1 orb loc_of_shr_record shr_m shr_r shr_s
       round_nearest_even Zdigits2].
  replace (e + -52 + 52) with e by lia.
  rewrite Hc, Z.sub_diag.
  cbn [shr shr_m]. rewrite He. reflexivity.
Qed.

Lemma float_mul_one (x : float) : (x * 1)%float = x.
Proof.
  apply Prim2SF_inj. rewrite mul_spec.
  pose proof (Prim2SF_valid x) as Hv.
  destruct (Prim2SF x) as [s|s| |s m e].
  - destruct s; reflexivity.
  - destruct s; reflexivity.
  - reflexivity.
  - now apply SFmul_one_finite.
Qed.

Lemma SFsub_diag_finite (x : spec_float) :
  match x with S754_zero _ | S754_finite _ _ _ => True | _ => False end ->
  SF64sub x x = S754_zero false.
Proof.
  destruct x as [s|s| |s m e]; intros H; try contradiction.
  - now destruct s.
  - unfold SF64sub, SFsub. rewrite Z.sub_diag. reflexivity.
Qed.

Lemma is_finite_SF (x : float) :
  is_finite x = true ->
  match Prim2SF x with S754_zero _ | S754_finite _ _ _ => True | _ => False end.
Proof.
  unfold is_finite, is_nan, is_infinity.
  rewrite !eqb_spec, abs_spec.
  change (Prim2SF infinity) with (S754_infinity false).
  destruct (Prim2SF x) as [s|[|]| |s m e]; cbn; easy.
Qed.

(** A finite float minus itself is +0.0. *)
Lemma float_sub_diag (x : float) : is_finite x = true -> (x - x)%float = 0%float.
Proof.
  intros H. apply Prim2SF_inj. rewrite sub_spec.
  now rewrite SFsub_diag_finite by now apply is_finite_SF.
Qed.

(** C7: with equal baseline and projected LDL, [calculate_ldl_effect]
    returns the risk [r] itself, the same float bit for bit: for every
    float [r] and every LDL value, a finite float. *)
Theorem calculate_ldl_effect_no_change (r ldl : float) :
  is_finite ldl = true ->
  calculate_ldl_effect (PyFloat r) (PyFloat ldl) (PyFloat ldl) = ([], ret (PyFloat r)).
Proof.
  intros Hfin.
  unfold calculate_ldl_effect, calculate_ldl_effect_try. cbn.
  rewrite (float_sub_diag ldl Hfin).
  vm_compute.
  now rewrite float_mul_one.
Qed.

(** C7 at a risk that is not a binary fraction. *)
Lemma calculate_ldl_effect_no_change_witness :
  is_finite 3.5 = true
  /\ calculate_ldl_effect (PyFloat 25.3) (PyFloat 3.5) (PyFloat 3.5)
     = ([], ret (PyFloat 25.3)).
Proof.
  assert (H : is_finite 3.5 = true) by reflexivity.
  split; [exact H | now apply calculate_ldl_effect_no_change].
Defined.

(** C10: for a NaN risk both comparisons, [>= 30] and [>= 20], are false
    and [generate_recommendations] returns the "Moderate Risk" text. *)
Theorem recommendation_for_nan :
  py_ge (PyFloat nan) (of_int 30) = ret false
  /\ py_ge (PyFloat nan) (of_int 20) = ret false
  /\ generate_recommendations (PyFloat nan) = ret moderate_risk.
Proof. repeat split; vm_compute; reflexivity. Qed.

End Binary64.

(** * Error handling *)

Section ErrorHandling.

Context {T : Type} {num : PyNum T} {libm : PyMath T}.

(** C9: whatever the numbers are and whichever operation of its [try]
    suite raises, [calculate_ldl_effect] raises nothing: it returns the
    computed risk when the suite succeeds, and when the suite raises it
    reports the error and returns the [baseline_risk] it was given. *)
Theorem calculate_ldl_effect_fail_open (baseline_risk baseline_ldl final_ldl : T) :
  (exists (shown : list (ui_event T)) (v : T),
      calculate_ldl_effect baseline_risk baseline_ldl final_ldl = (shown, ret v))
  /\ (forall v : T,
         calculate_ldl_effect_try baseline_risk baseline_ldl final_ldl = ret v ->
         calculate_ldl_effect baseline_risk baseline_ldl final_ldl = ([], ret v))
  /\ (forall e : exn,
         calculate_ldl_effect_try baseline_risk baseline_ldl final_ldl = raise e ->
         calculate_ldl_effect baseline_risk baseline_ldl final_ldl
         = ([st_error ("Error calculating LDL effect: " ++ exn_str e)], ret baseline_risk)).
Proof.
  unfold calculate_ldl_effect.
  destruct (calculate_ldl_effect_try baseline_risk baseline_ldl final_ldl) as [e|v];
    cbn; repeat split.
  - eauto.
  - discriminate.
  - intros e' [= <-]. reflexivity.
  - eauto.
  - intros v' [= <-]. reflexivity.
  - discriminate.
Qed.


End ErrorHandling.

(** The fallback of [calculate_ldl_effect] is reached: a missing LDL value
    makes the subtraction raise, and the baseline risk comes back. *)
Lemma calculate_ldl_effect_type_error :
  calculate_ldl_effect (PyFloat 25.3) PyNone (PyFloat 1.4)
  = ([st_error "Error calculating LDL effect: unsupported operand type(s) for -: 'NoneType' and 'float'"],
     ret (PyFloat 25.3)).
Proof. vm_compute. reflexivity. Qed.




(** * Further properties *)

(** X1: with no prescribed therapy and no add-ons the total reduction is 0
    and the projected LDL is the current LDL, over the real numbers and,
    bit for bit, over binary64 floats. *)
Theorem no_therapy_no_change :
  (forall (current_ldl : R) (pre_statin : string),
      calculate_ldl_reduction current_ldl pre_statin "None" [] = ret (current_ldl, 0%R))
  /\ (forall (current_ldl : float) (pre_statin : string),
         calculate_ldl_reduction (PyFloat current_ldl) pre_statin "None" []
         = ret (PyFloat current_ldl, PyFloat 0)).
Proof.
  split; intros current_ldl pre_statin.
  - rewrite calculate_ldl_reduction_real.
    unfold total_reduction_percent, catalog_lookup; cbn.
    unfold ret. destruct (pre_statin =? "None"); do 2 f_equal; lra.
  - unfold calculate_ldl_reduction.
    destruct (pre_statin =? "None"); vm_compute; now rewrite float_mul_one.
Qed.

(** X2: a therapy that is not a key of [LDL_THERAPIES] has reduction 0; the
    lookup raises nothing. *)
Theorem unknown_therapy_zero (identifier : string) :
  ~ In identifier therapy_keys ->
  dict_get "reduction" (dict_get identifier LDL_THERAPIES []) 0%Z = 0%Z.
Proof.
  intros H. unfold therapy_keys, LDL_THERAPIES in *. cbn in H. cbn [dict_get].
  repeat match goal with
         | |- context [String.eqb identifier ?k] =>
             destruct (String.eqb_spec identifier k) as [->|_]; [exfalso; tauto|]
         end.
  reflexivity.
Qed.

(** X2 at a statin the catalog does not list. *)
Lemma unknown_therapy_zero_witness :
  ~ In "Simvastatin 40 mg" therapy_keys
  /\ dict_get "reduction" (dict_get "Simvastatin 40 mg" LDL_THERAPIES []) 0%Z = 0%Z.
Proof.
  assert (H : ~ In "Simvastatin 40 mg" therapy_keys)
    by (cbn; intros [H|[H|[H|[H|[]]]]]; discriminate).
  split; [exact H | now apply unknown_therapy_zero].
Defined.

(** X3: given a float as baseline risk, [calculate_ldl_effect] returns a
    float whatever the two LDL arguments are, [None] included. *)
Theorem calculate_ldl_effect_numeric (baseline_risk : float) (baseline_ldl final_ldl : pyobj) :
  exists (shown : list (ui_event pyobj)) (x : float),
    calculate_ldl_effect (PyFloat baseline_risk) baseline_ldl final_ldl
    = (shown, ret (PyFloat x)).
Proof.
  destruct baseline_ldl as [|bl], final_ldl as [|fl];
    try (eexists _, _; vm_compute; reflexivity).
  unfold calculate_ldl_effect, calculate_ldl_effect_try. cbn.
  destruct (PrimFloat.ltb 60 (22 * (bl - fl))); cbn; eexists _, _; reflexivity.
Qed.

(** With an infinite LDL on both sides the difference is NaN and so is
    the returned risk: the identity of C7 needs a finite LDL. *)
Theorem calculate_ldl_effect_infinite_ldl :
  calculate_ldl_effect (PyFloat 25.3) (PyFloat infinity) (PyFloat infinity)
  = ([], ret (PyFloat nan)).
Proof. vm_compute. reflexivity. Qed.

(** For 3.5 mmol/L, no current therapy, Rosuvastatin 20 mg and no
    add-ons the result is 1.575 and 55 over the real numbers; over binary64
    floats the projected LDL is 1.5749999999999997, one unit in the last
    place below the float nearest to 1.575. *)
Theorem rosuvastatin_example :
  calculate_ldl_reduction 3.5%R "None" "Rosuvastatin 20 mg" [] = ret (1.575%R, 55%R)
  /\ calculate_ldl_reduction (PyFloat 3.5) "None" "Rosuvastatin 20 mg" []
     = ret (PyFloat 1.5749999999999997, PyFloat 55)
  /\ PrimFloat.eqb 1.5749999999999997 1.575 = false.
Proof.
  split; [|split].
  - rewrite calculate_ldl_reduction_real.
    unfold total_reduction_percent, catalog_lookup; cbn.
    unfold ret. do 2 f_equal; lra.
  - vm_compute. reflexivity.
  - vm_compute. reflexivity.
Qed.

(** X6: for a valid profile (the ranges of the input layer), before
    "Calculate Treatment Impact" is clicked, the main logic shows the
    baseline risk, a number between 1.0 and 99.0, and nothing else: the
    truthiness test on the risk never hides a computed risk, since the
    clamp keeps it away from zero. *)
Theorem main_logic_shows_baseline (w : session (T := R)) :
  valid_profile (age w) (sbp w) (total_chol w) (hdl w) (egfr w) (crp w) (vasc_count w) ->
  calculate_clicked w = false ->
  exists v : R,
    main_logic w = ([st_success "Baseline 10-Year Risk" v], ret tt)
    /\ (1 <= v <= 99)%R.
Proof.
  intros Hvalid Hclick.
  eexists. split.
  - unfold main_logic.
    rewrite calculate_smart_risk_valid by assumption.
    set (v := baseline_risk_percent _).
    assert (Hv : (1 <= v <= 99)%R) by (apply clamp_range; lra).
    cbn. rewrite Hclick.
    destruct (Req_dec_T v 0) as [H0|_]; [lra|]. reflexivity.
  - apply clamp_range. lra.
Qed.

(** X6 at the golden fixture. *)
Lemma main_logic_shows_baseline_witness :
  exists v : R,
    main_logic fixture_session = ([st_success "Baseline 10-Year Risk" v], ret tt)
    /\ (1 <= v <= 99)%R.
Proof.
  apply main_logic_shows_baseline.
  - apply input_layer_valid; cbn; try lia; lra.
  - reflexivity.
Defined.

(** ** How the treatment functions compose *)

Section TreatmentReal.

Local Open Scope R_scope.

Lemma calculate_ldl_effect_real (baseline_risk baseline_ldl final_ldl : R) :
  calculate_ldl_effect baseline_risk baseline_ldl final_ldl
  = ([], ret (baseline_risk * (1 - Rmin (22 * (baseline_ldl - final_ldl)) 60 / 100))).
Proof.
  unfold calculate_ldl_effect, calculate_ldl_effect_try. cbn.
  rewrite if_Rltb_min.
  destruct (Req_dec_T 100 0) as [H|_]; [lra|]. reflexivity.
Qed.

Lemma risk_after_reduction_bounds (baseline_risk current_ldl t : R) :
  0 <= baseline_risk -> 0 <= current_ldl -> 0 <= t ->
  0.4 * baseline_risk
  <= baseline_risk
     * (1 - Rmin (22 * (current_ldl - current_ldl * (1 - t / 100))) 60 / 100)
  <= baseline_risk.
Proof.
  intros Hr Hl Ht.
  set (d := current_ldl - current_ldl * (1 - t / 100)).
  assert (Hd : 0 <= d) by (unfold d; nra).
  assert (Hm : 0 <= Rmin (22 * d) 60 <= 60).
  { split; [apply Rmin_glb; lra | apply Rmin_r]. }
  split; nra.
Qed.

Lemma generate_recommendations_real (final_risk : R) :
  generate_recommendations final_risk
  = ret (if Rle_dec 30 final_risk then very_high_risk
         else if Rle_dec 20 final_risk then high_risk else moderate_risk).
Proof.
  unfold generate_recommendations; cbn; unfold Rleb.
  destruct (Rle_dec 30 final_risk), (Rle_dec 20 final_risk); reflexivity.
Qed.

(** X8: the projected LDL that [calculate_ldl_reduction] returns, fed to
    [calculate_ldl_effect], never raises the risk and never lowers it below
    40 percent of the baseline, for any non-negative baseline risk and
    current LDL: the uncapped reduction of the first function is absorbed
    by the cap of the second. *)
Theorem treatment_never_raises_risk (baseline_risk current_ldl : R)
    (pre_statin discharge_statin : string) (discharge_add_ons : list string) :
  0 <= baseline_risk -> 0 <= current_ldl ->
  exists projected_ldl total_reduction final_risk : R,
    calculate_ldl_reduction current_ldl pre_statin discharge_statin discharge_add_ons
    = ret (projected_ldl, total_reduction)
    /\ calculate_ldl_effect baseline_risk current_ldl projected_ldl = ([], ret final_risk)
    /\ 0.4 * baseline_risk <= final_risk <= baseline_risk.
Proof.
  intros Hr Hl. eexists _, _, _.
  split; [apply calculate_ldl_reduction_real|].
  split; [apply calculate_ldl_effect_real|].
  apply risk_after_reduction_bounds; try assumption.
  apply total_reduction_percent_range.
Qed.

(** X8 at the combination whose projected LDL is negative. *)
Lemma treatment_never_raises_risk_witness :
  exists projected_ldl total_reduction final_risk : R,
    calculate_ldl_reduction 3.5 "None" "Rosuvastatin 20 mg" ["Ezetimibe"; "PCSK9 inhibitor"]
    = ret (projected_ldl, total_reduction)
    /\ calculate_ldl_effect 25.3 3.5 projected_ldl = ([], ret final_risk)
    /\ 0.4 * 25.3 <= final_risk <= 25.3.
Proof.
  apply treatment_never_raises_risk; lra.
Defined.

(** X9: for a non-negative baseline risk, a lower projected LDL never gives
    a higher risk. *)
Theorem calculate_ldl_effect_monotone (baseline_risk baseline_ldl final_ldl final_ldl' : R) :
  0 <= baseline_risk -> final_ldl <= final_ldl' ->
  exists risk risk' : R,
    calculate_ldl_effect baseline_risk baseline_ldl final_ldl = ([], ret risk)
    /\ calculate_ldl_effect baseline_risk baseline_ldl final_ldl' = ([], ret risk')
    /\ risk <= risk'.
Proof.
  intros Hr Hl. eexists _, _.
  split; [apply calculate_ldl_effect_real|].
  split; [apply calculate_ldl_effect_real|].
  assert (Rmin (22 * (baseline_ldl - final_ldl')) 60 <= Rmin (22 * (baseline_ldl - final_ldl)) 60).
  { apply Rmin_glb; [|apply Rmin_r].
    eapply Rle_trans; [apply Rmin_l|]. lra. }
  nra.
Qed.

Lemma calculate_ldl_effect_monotone_witness :
  exists risk risk' : R,
    calculate_ldl_effect 25.3 3.5 1.4 = ([], ret risk)
    /\ calculate_ldl_effect 25.3 3.5 2.1 = ([], ret risk')
    /\ risk <= risk'.
Proof.
  apply calculate_ldl_effect_monotone; lra.
Defined.

(** X10: once the LDL is lowered by 60/22 mmol/L or more, the result is 40
    percent of the baseline risk whatever the LDL values are: lowering LDL
    further changes nothing. *)
Theorem calculate_ldl_effect_saturates (baseline_risk baseline_ldl final_ldl : R) :
  60 <= 22 * (baseline_ldl - final_ldl) ->
  calculate_ldl_effect baseline_risk baseline_ldl final_ldl
  = ([], ret (baseline_risk * (1 - 60 / 100))).
Proof.
  intros H. rewrite calculate_ldl_effect_real.
  rewrite Rmin_right by lra. reflexivity.
Qed.

Lemma calculate_ldl_effect_saturates_witness :
  calculate_ldl_effect 25.3 5.0 1.0 = ([], ret (25.3 * (1 - 60 / 100))).
Proof.
  apply calculate_ldl_effect_saturates. lra.
Defined.

(** X11: the relative risk reduction has no lower cap: when the projected
    LDL is above the baseline LDL a positive risk is raised, by 22 percent
    per mmol/L, without bound. *)
Theorem ldl_increase_raises_risk (baseline_risk baseline_ldl final_ldl : R) :
  0 < baseline_risk -> baseline_ldl < final_ldl ->
  exists risk : R,
    calculate_ldl_effect baseline_risk baseline_ldl final_ldl = ([], ret risk)
    /\ risk = baseline_risk * (1 + 22 * (final_ldl - baseline_ldl) / 100)
    /\ baseline_risk < risk.
Proof.
  intros Hr Hl. eexists. split; [apply calculate_ldl_effect_real|].
  rewrite Rmin_left by lra. split; [lra | nra].
Qed.

Lemma ldl_increase_raises_risk_witness :
  exists risk : R,
    calculate_ldl_effect 25.3 2.0 3.5 = ([], ret risk)
    /\ risk = 25.3 * (1 + 22 * (3.5 - 2.0) / 100)
    /\ 25.3 < risk.
Proof.
  apply ldl_increase_raises_risk; lra.
Defined.

(** X12: a patient already on a therapy never gets a larger total
    reduction, nor a lower projected LDL, than a patient on none with the
    same prescription and add-ons. *)
Theorem current_therapy_never_helps (current_ldl : R) (pre_statin discharge_statin : string)
    (discharge_add_ons : list string) :
  0 <= current_ldl ->
  exists p t p0 t0 : R,
    calculate_ldl_reduction current_ldl pre_statin discharge_statin discharge_add_ons
    = ret (p, t)
    /\ calculate_ldl_reduction current_ldl "None" discharge_statin discharge_add_ons
       = ret (p0, t0)
    /\ t <= t0 /\ p0 <= p.
Proof.
  intros Hl. eexists _, _, _, _.
  split; [apply calculate_ldl_reduction_real|].
  split; [apply calculate_ldl_reduction_real|].
  unfold total_reduction_percent.
  pose proof (catalog_lookup_range discharge_statin).
  change ("None" =? "None") with true. cbv iota.
  destruct (pre_statin =? "None"); split; try lra; nra.
Qed.

Lemma current_therapy_never_helps_witness :
  exists p t p0 t0 : R,
    calculate_ldl_reduction 3.5 "Atorvastatin 20 mg" "Rosuvastatin 20 mg" ["Ezetimibe"]
    = ret (p, t)
    /\ calculate_ldl_reduction 3.5 "None" "Rosuvastatin 20 mg" ["Ezetimibe"] = ret (p0, t0)
    /\ t <= t0 /\ p0 <= p.
Proof.
  apply current_therapy_never_helps. lra.
Defined.

Lemma py_in_incl (x : string) (l l' : list string) :
  incl l l' -> py_in x l = true -> py_in x l' = true.
Proof.
  unfold py_in. rewrite !existsb_exists.
  intros H (y & Hy & E). exists y. split; [now apply H | assumption].
Qed.

Lemma total_reduction_percent_incl (pre_statin discharge_statin : string)
    (add_ons add_ons' : list string) :
  incl add_ons add_ons' ->
  total_reduction_percent pre_statin discharge_statin add_ons
  <= total_reduction_percent pre_statin discharge_statin add_ons'.
Proof.
  intros H. unfold total_reduction_percent.
  assert (E : forall (x : string) (c : R), 0 <= c ->
              (if py_in x add_ons then c else 0) <= (if py_in x add_ons' then c else 0)).
  { intros x c Hc. destruct (py_in x add_ons) eqn:E1.
    - rewrite (py_in_incl x _ _ H E1). lra.
    - destruct (py_in x add_ons'); lra. }
  pose proof (E "Ezetimibe" 20). pose proof (E "PCSK9 inhibitor" 60).
  pose proof (E "Inclisiran" 50). lra.
Qed.

(** X13: adding add-ons never lowers the total reduction, never raises the
    projected LDL and never raises the post-treatment risk. *)
Theorem more_add_ons_lower_risk (baseline_risk current_ldl : R)
    (pre_statin discharge_statin : string) (add_ons add_ons' : list string) :
  0 <= baseline_risk -> 0 <= current_ldl -> incl add_ons add_ons' ->
  exists p t f p' t' f' : R,
    calculate_ldl_reduction current_ldl pre_statin discharge_statin add_ons = ret (p, t)
    /\ calculate_ldl_effect baseline_risk current_ldl p = ([], ret f)
    /\ calculate_ldl_reduction current_ldl pre_statin discharge_statin add_ons' = ret (p', t')
    /\ calculate_ldl_effect baseline_risk current_ldl p' = ([], ret f')
    /\ t <= t' /\ p' <= p /\ f' <= f.
Proof.
  intros Hr Hl Hincl. eexists _, _, _, _, _, _.
  split; [apply calculate_ldl_reduction_real|].
  split; [apply calculate_ldl_effect_real|].
  split; [apply calculate_ldl_reduction_real|].
  split; [apply calculate_ldl_effect_real|].
  pose proof (total_reduction_percent_incl pre_statin discharge_statin _ _ Hincl) as Ht.
  set (t := total_reduction_percent pre_statin discharge_statin add_ons) in *.
  set (t' := total_reduction_percent pre_statin discharge_statin add_ons') in *.
  assert (Hp : current_ldl * (1 - t' / 100) <= current_ldl * (1 - t / 100)) by nra.
  split; [exact Ht|]. split; [exact Hp|].
  assert (Rmin (22 * (current_ldl - current_ldl * (1 - t / 100))) 60
          <= Rmin (22 * (current_ldl - current_ldl * (1 - t' / 100))) 60).
  { apply Rmin_glb; [|apply Rmin_r].
    eapply Rle_trans; [apply Rmin_l|]. lra. }
  nra.
Qed.

Lemma more_add_ons_lower_risk_witness :
  exists p t f p' t' f' : R,
    calculate_ldl_reduction 3.5 "None" "Atorvastatin 20 mg" ["Ezetimibe"] = ret (p, t)
    /\ calculate_ldl_effect 25.3 3.5 p = ([], ret f)
    /\ calculate_ldl_reduction 3.5 "None" "Atorvastatin 20 mg" ["Inclisiran"; "Ezetimibe"]
       = ret (p', t')
    /\ calculate_ldl_effect 25.3 3.5 p' = ([], ret f')
    /\ t <= t' /\ p' <= p /\ f' <= f.
Proof.
  apply more_add_ons_lower_risk; try lra.
  intros a [<-|[]]. cbn. tauto.
Defined.

End TreatmentReal.

(** ** What the functions read of their inputs *)

Section Inputs.

Context {T : Type} {num : PyNum T} {libm : PyMath T}.

Lemma py_in_In (x : string) (l : list string) : py_in x l = true <-> In x l.
Proof.
  unfold py_in. rewrite existsb_exists. split.
  - intros (y & Hy & E). apply String.eqb_eq in E. now subst.
  - intros H. exists x. split; [assumption | apply String.eqb_refl].
Qed.

Lemma py_in_same (x : string) (l l' : list string) :
  (forall a, In a l <-> In a l') -> py_in x l = py_in x l'.
Proof.
  intros H. apply eq_true_iff_eq. rewrite !py_in_In. apply H.
Qed.

(** X14: the add-ons are read as a set: two lists with the same members,
    in any order and with any repetitions, give the same result, whatever
    the arithmetic. *)
Theorem add_ons_as_a_set (current_ldl : T) (pre_statin discharge_statin : string)
    (add_ons add_ons' : list string) :
  (forall a : string, In a add_ons <-> In a add_ons') ->
  calculate_ldl_reduction current_ldl pre_statin discharge_statin add_ons
  = calculate_ldl_reduction current_ldl pre_statin discharge_statin add_ons'.
Proof.
  intros H. unfold calculate_ldl_reduction.
  now rewrite !(py_in_same _ add_ons add_ons' H).
Qed.

(** X15: of the current therapy only whether it is "None" is read: any two
    current therapies give the same result, also when the current therapy
    is the prescribed one. *)
Theorem current_therapy_identity_ignored (current_ldl : T)
    (pre_statin pre_statin' discharge_statin : string) (discharge_add_ons : list string) :
  pre_statin <> "None" -> pre_statin' <> "None" ->
  calculate_ldl_reduction current_ldl pre_statin discharge_statin discharge_add_ons
  = calculate_ldl_reduction current_ldl pre_statin' discharge_statin discharge_add_ons.
Proof.
  intros H H'. apply String.eqb_neq in H, H'.
  unfold calculate_ldl_reduction. now rewrite H, H'.
Qed.

(** X16: every sex other than the string "Male" is scored as "Female". *)
Theorem sex_other_than_male (age : Z) (sex : string) (sbp : Z) (total_chol hdl : T)
    (smoker diabetes : bool) (egfr : Z) (crp : T) (vasc_count : Z) :
  sex <> "Male" ->
  calculate_smart_risk age sex sbp total_chol hdl smoker diabetes egfr crp vasc_count
  = calculate_smart_risk age "Female" sbp total_chol hdl smoker diabetes egfr crp vasc_count.
Proof.
  intros H. apply String.eqb_neq in H.
  unfold calculate_smart_risk, calculate_smart_risk_try. now rewrite H.
Qed.

(** X20: the vascular disease count the script passes to the estimator,
    the sum of three checkboxes, is between 0 and 3. *)
Theorem vasc_count_range (w : session (T := T)) : (0 <= vasc_count w <= 3)%Z.
Proof.
  unfold vasc_count. destruct (cad w), (stroke w), (pad w); cbn; lia.
Qed.

(** X21: [calculate_smart_risk] raises nothing: when its [try] suite
    returns it returns the same and shows nothing; when the suite raises it
    reports the text of the exception and returns [None]. *)
Theorem calculate_smart_risk_fail_closed (age : Z) (sex : string) (sbp : Z)
    (total_chol hdl : T) (smoker diabetes : bool) (egfr : Z) (crp : T) (vasc_count : Z) :
  (exists (shown : list (ui_event T)) (r : option T),
      calculate_smart_risk age sex sbp total_chol hdl smoker diabetes egfr crp vasc_count
      = (shown, ret r))
  /\ (forall r : option T,
         calculate_smart_risk_try age sex sbp total_chol hdl smoker diabetes egfr crp
           vasc_count = ret r ->
         calculate_smart_risk age sex sbp total_chol hdl smoker diabetes egfr crp vasc_count
         = ([], ret r))
  /\ (forall e : exn,
         calculate_smart_risk_try age sex sbp total_chol hdl smoker diabetes egfr crp
           vasc_count = raise e ->
         calculate_smart_risk age sex sbp total_chol hdl smoker diabetes egfr crp vasc_count
         = ([st_error ("Error calculating risk: " ++ exn_str e)], ret None)).
Proof.
  unfold calculate_smart_risk.
  destruct (calculate_smart_risk_try age sex sbp total_chol hdl smoker diabetes egfr crp
              vasc_count) as [e|r]; cbn; repeat split.
  - eauto.
  - discriminate.
  - intros e' [= <-]. reflexivity.
  - eauto.
  - intros r' [= <-]. reflexivity.
  - discriminate.
Qed.

(** X22: [calculate_ldl_reduction] is called outside any [try]: when it
    raises, the treatment steps show nothing and the exception leaves the
    script. *)
Theorem treatment_impact_propagates (w : session (T := T)) (baseline_risk : T) (e : exn) :
  calculate_ldl_reduction (ldl w) (pre_statin w) (discharge_statin w) (discharge_add_ons w)
  = raise e ->
  treatment_impact w baseline_risk = ([], raise e).
Proof.
  intros H. unfold treatment_impact. rewrite H. reflexivity.
Qed.

(** X25: the "LDL-C Target" slider is read by the report only: apart from
    the download button, what the script shows and whether it raises do not
    depend on the target. *)
Theorem target_ldl_unused (w : session (T := T)) (target : T) :
  without_download (fst (main_logic (with_target_ldl w target)))
  = without_download (fst (main_logic w))
  /\ snd (main_logic (with_target_ldl w target)) = snd (main_logic w).
Proof.
  unfold main_logic, treatment_impact, with_target_ldl, vasc_count.
  cbn [age sex diabetes smoker cad stroke pad total_chol hdl ldl sbp egfr crp pre_statin
       discharge_statin discharge_add_ons target_ldl calculate_clicked patient_name
       generate_clicked].
  destruct (calculate_smart_risk _ _ _ _ _ _ _ _ _ _) as [shown [e|[risk|]]];
    cbn [ui_bind]; try (split; reflexivity).
  destruct (py_bool risk); try (split; reflexivity).
  destruct (calculate_clicked w); try (split; reflexivity).
  cbn [emit ui_bind ret run].
  destruct (calculate_ldl_reduction _ _ _ _) as [e|[p t]]; try (split; reflexivity).
  destruct (calculate_ldl_effect risk (ldl w) p) as [shown2 [e|f]];
    cbn [ui_bind]; try (split; reflexivity).
  destruct (generate_recommendations f) as [e|text];
    cbn [ui_bind run]; try (split; reflexivity).
  destruct (py_sub risk f) as [e|d]; cbn [ui_bind run]; try (split; reflexivity).
  destruct (generate_clicked w && negb (patient_name w =? "")).
  - unfold create_pdf_report.
    destruct (latin1_encodable (patient_name w) && latin1_encodable (sex w)
              && latin1_encodable text).
    + cbn. unfold without_download. repeat (rewrite filter_app; cbn). split; reflexivity.
    + split; reflexivity.
  - split; reflexivity.
Qed.

End Inputs.

(** X14 at two orders of the same add-ons, one with a repetition. *)
Lemma add_ons_as_a_set_witness :
  calculate_ldl_reduction 3.5%R "None" "Atorvastatin 20 mg" ["Ezetimibe"; "Inclisiran"]
  = calculate_ldl_reduction 3.5%R "None" "Atorvastatin 20 mg"
      ["Inclisiran"; "Ezetimibe"; "Inclisiran"].
Proof.
  apply add_ons_as_a_set. intros a. cbn. tauto.
Defined.

(** X15 at a patient kept on the statin already taken. *)
Lemma current_therapy_identity_ignored_witness :
  calculate_ldl_reduction 3.5%R "Atorvastatin 80 mg" "Atorvastatin 80 mg" []
  = calculate_ldl_reduction 3.5%R "Rosuvastatin 10 mg" "Atorvastatin 80 mg" [].
Proof.
  apply current_therapy_identity_ignored; discriminate.
Defined.

(** X16 at a sex written in lower case. *)
Lemma sex_other_than_male_witness :
  calculate_smart_risk 65 "male" 140 5.0%R 1.0%R false false 80 2.0%R 0
  = calculate_smart_risk 65 "Female" 140 5.0%R 1.0%R false false 80 2.0%R 0.
Proof.
  apply sex_other_than_male. discriminate.
Defined.

(** X22 at a run with no LDL-C value. *)
Lemma treatment_impact_propagates_witness :
  treatment_impact missing_ldl_session (PyFloat 25.3)
  = ([], raise (TypeError "unsupported operand type(s) for *: 'NoneType' and 'float'")).
Proof.
  apply treatment_impact_propagates. reflexivity.
Defined.

(** ** More on the baseline estimator and the selector *)

Section BaselineReal.

Local Open Scope R_scope.



(** X18: on a valid profile the baseline risk is a whole number of tenths,
    from 1.0 to 99.0. *)
Theorem baseline_risk_one_decimal age sex sbp total_chol hdl smoker diabetes egfr crp vasc_count :
  valid_profile age sbp total_chol hdl egfr crp vasc_count ->
  exists k : Z,
    calculate_smart_risk age sex sbp total_chol hdl smoker diabetes egfr crp vasc_count
    = ([], ret (Some (IZR k / 10)))
    /\ (10 <= k <= 990)%Z.
Proof.
  intros Hvalid. rewrite calculate_smart_risk_valid by assumption.
  set (lp := linear_predictor _ _ _ _ _ _ _ _ _ _).
  unfold baseline_risk_percent, Rround.
  replace (powerRZ 10 1) with 10 by (unfold powerRZ; simpl; lra).
  set (n := round_half_even (risk10 lp * 100 * 10)).
  unfold clamp, Rmin, Rmax.
  destruct (Rle_dec 99 (IZR n / 10)) as [H99|H99].
  - destruct (Rle_dec 1 99); [|lra].
    exists 990%Z. split; [|lia]. do 3 f_equal. lra.
  - destruct (Rle_dec 1 (IZR n / 10)) as [H1|H1].
    + exists n. split; [reflexivity|].
      assert (10 <= IZR n < 990) as [Ha Hb] by lra.
      apply le_IZR in Ha. apply lt_IZR in Hb. lia.
    + exists 10%Z. split; [|lia]. do 3 f_equal. lra.
Qed.

Lemma baseline_risk_one_decimal_witness :
  exists k : Z,
    calculate_smart_risk 65 "Male" 140 5.0 1.0 false false 80 2.0 0
    = ([], ret (Some (IZR k / 10)))
    /\ (10 <= k <= 990)%Z.
Proof.
  apply baseline_risk_one_decimal.
  apply input_layer_valid; try lia; lra.
Defined.

(** X19: the selector is monotone: a higher risk never gets a lower tier. *)
Theorem recommendation_monotone (risk risk' : R) :
  risk <= risk' ->
  exists text text' : string,
    generate_recommendations risk = ret text
    /\ generate_recommendations risk' = ret text'
    /\ (tier_rank text <= tier_rank text')%nat.
Proof.
  intros H. eexists _, _.
  split; [apply generate_recommendations_real|].
  split; [apply generate_recommendations_real|].
  destruct (Rle_dec 30 risk), (Rle_dec 20 risk), (Rle_dec 30 risk'), (Rle_dec 20 risk');
    try lra; cbn; lia.
Qed.

Lemma recommendation_monotone_witness :
  exists text text' : string,
    generate_recommendations 19.9 = ret text
    /\ generate_recommendations 30 = ret text'
    /\ (tier_rank text <= tier_rank text')%nat.
Proof.
  apply recommendation_monotone. lra.
Defined.

(** The three recommendation texts start with a character beyond U+00FF,
    so a report that prints one of them cannot be encoded. *)
Lemma create_pdf_report_raises {T : Type} (name : string) (age : Z) (sex : string)
    (baseline_risk final_risk current_ldl ldl_target : T) (text : string) :
  In text [very_high_risk; high_risk; moderate_risk] ->
  create_pdf_report name age sex baseline_risk final_risk current_ldl ldl_target text
  = raise latin1_error.
Proof.
  intros H. unfold create_pdf_report.
  assert (E : latin1_encodable text = false).
  { destruct H as [<-|[<-|[<-|[]]]]; vm_compute; reflexivity. }
  rewrite E, andb_false_r. reflexivity.
Qed.

(** X24: for a valid profile and a non-negative LDL, once "Calculate
    Treatment Impact" is clicked the script shows, in this order, the
    baseline risk, the projected LDL with the total reduction, the
    post-treatment risk with the absolute reduction, the heading and the
    recommendation for the post-treatment risk, and no error; the
    post-treatment risk lies between 40 percent of the baseline risk and
    the baseline risk.  The script then returns, unless "Generate PDF
    Report" is clicked with a name given: then [create_pdf_report] raises
    on the recommendation text and no download button is shown. *)
Theorem main_logic_treatment_path (w : session (T := R)) :
  valid_profile (age w) (sbp w) (total_chol w) (hdl w) (egfr w) (crp w) (vasc_count w) ->
  0 <= ldl w ->
  calculate_clicked w = true ->
  exists (v p t f : R) (text : string),
    main_logic w
    = ([st_success "Baseline 10-Year Risk" v;
        st_metric "Projected LDL-C" p t;
        st_metric "Post-Treatment Risk" f (v - f);
        st_subheader "Clinical Recommendations";
        st_write text],
       if generate_clicked w && negb (patient_name w =? "")
       then raise latin1_error else ret tt)
    /\ 1 <= v <= 99
    /\ calculate_ldl_reduction (ldl w) (pre_statin w) (discharge_statin w)
         (discharge_add_ons w) = ret (p, t)
    /\ 0.4 * v <= f <= v
    /\ generate_recommendations f = ret text.
Proof.
  intros Hvalid Hldl Hclick.
  remember (baseline_risk_percent
              (linear_predictor (age w) (sex w) (sbp w) (total_chol w) (hdl w)
                 (smoker w) (diabetes w) (egfr w) (crp w) (vasc_count w))) as v eqn:Ev.
  assert (Hv : 1 <= v <= 99) by (rewrite Ev; apply clamp_range; lra).
  pose proof (calculate_ldl_reduction_real (ldl w) (pre_statin w) (discharge_statin w)
                (discharge_add_ons w)) as Hred. cbv zeta in Hred.
  set (t := total_reduction_percent (pre_statin w) (discharge_statin w)
              (discharge_add_ons w)) in *.
  set (p := ldl w * (1 - t / 100)) in *.
  pose proof (calculate_ldl_effect_real v (ldl w) p) as Heff.
  set (f := v * (1 - Rmin (22 * (ldl w - p)) 60 / 100)) in *.
  assert (Hf : 0.4 * v <= f <= v).
  { apply risk_after_reduction_bounds; try lra.
    apply total_reduction_percent_range. }
  set (text := if Rle_dec 30 f then very_high_risk
               else if Rle_dec 20 f then high_risk else moderate_risk).
  assert (Hin : In text [very_high_risk; high_risk; moderate_risk]).
  { unfold text. destruct (Rle_dec 30 f), (Rle_dec 20 f); cbn; tauto. }
  exists v, p, t, f, text.
  split; [|split; [exact Hv|split; [exact Hred|split; [exact Hf|]]]].
  - unfold main_logic.
    rewrite calculate_smart_risk_valid by assumption. rewrite <- Ev.
    cbn -[treatment_impact]. destruct (Req_dec_T v 0) as [H0|_]; [lra|].
    rewrite Hclick. unfold treatment_impact.
    rewrite Hred. cbn -[calculate_ldl_effect generate_recommendations create_pdf_report].
    rewrite Heff. cbn -[generate_recommendations create_pdf_report].
    rewrite generate_recommendations_real. fold text.
    cbn -[create_pdf_report].
    destruct (generate_clicked w && negb (patient_name w =? "")); [|reflexivity].
    rewrite (create_pdf_report_raises _ _ _ _ _ _ _ _ Hin). reflexivity.
  - apply generate_recommendations_real.
Qed.

(** X27: when the argument of [math.exp] is so large that the result is
    no binary64 number, as for a total cholesterol of 5000, the estimator
    reports "math range error" and returns no risk; the script then shows
    the warning and none of the treatment steps. *)
Theorem baseline_overflow_reported (w : session (T := R)) :
  -1 < crp w ->
  binary64_overflow
  <= exp (linear_predictor (age w) (sex w) (sbp w) (total_chol w) (hdl w) (smoker w)
            (diabetes w) (egfr w) (crp w) (vasc_count w) - 5.8) ->
  calculate_smart_risk (age w) (sex w) (sbp w) (total_chol w) (hdl w) (smoker w)
    (diabetes w) (egfr w) (crp w) (vasc_count w)
  = ([st_error "Error calculating risk: math range error"], ret None)
  /\ main_logic w
     = ([st_error "Error calculating risk: math range error";
         st_warning "Please complete all patient data to calculate risk."], ret tt).
Proof.
  intros Hc Hov.
  assert (E := calculate_smart_risk_overflow (age w) (sex w) (sbp w) (total_chol w) (hdl w)
                 (smoker w) (diabetes w) (egfr w) (crp w) (vasc_count w)).
  rewrite E by (assumption || lra). split; [reflexivity|].
  unfold main_logic. rewrite E by (assumption || lra). reflexivity.
Qed.

Lemma baseline_overflow_reported_witness :
  calculate_smart_risk 65 "Male" 140 5000 1.0 false false 80 2.0 0
  = ([st_error "Error calculating risk: math range error"], ret None)
  /\ main_logic overflow_session
     = ([st_error "Error calculating risk: math range error";
         st_warning "Please complete all patient data to calculate risk."], ret tt).
Proof.
  apply (baseline_overflow_reported overflow_session).
  - cbn. lra.
  - apply Rle_trans with (2 ^ 1024).
    + unfold binary64_overflow. rewrite (pow_IZR 2 1024).
      apply IZR_le. vm_compute. discriminate.
    + apply pow2_le_exp.
      replace (INR 1024) with 1024 by (rewrite INR_IZR_INZ; reflexivity).
      assert (0 <= ln (2.0 + 1)).
      { rewrite <- ln_1. left. apply ln_increasing; lra. }
      unfold linear_predictor. cbn. lra.
Defined.

End BaselineReal.

(** X24 at the golden fixture with Rosuvastatin 20 mg and Ezetimibe, both
    buttons clicked. *)
Lemma main_logic_treatment_path_witness :
  exists (v p t f : R) (text : string),
    main_logic treated_session
    = ([st_success "Baseline 10-Year Risk" v;
        st_metric "Projected LDL-C" p t;
        st_metric "Post-Treatment Risk" f (v - f)%R;
        st_subheader "Clinical Recommendations";
        st_write text],
       raise latin1_error)
    /\ (0.4 * v <= f <= v)%R.
Proof.
  destruct (main_logic_treatment_path treated_session) as (v & p & t & f & text & H & _ & _ & Hf & _).
  - apply input_layer_valid; cbn; try lia; lra.
  - cbn; lra.
  - reflexivity.
  - exists v, p, t, f, text. split; [exact H | exact Hf].
Defined.

(** ** More on binary64 floats and missing values *)

Section MoreBinary64.

Lemma float_sub_diag_nan (x : float) : is_finite x = false -> (x - x)%float = nan.
Proof.
  intros H. apply Prim2SF_inj. rewrite sub_spec.
  change (Prim2SF nan) with S754_nan.
  revert H. unfold is_finite, is_nan, is_infinity.
  rewrite !eqb_spec, abs_spec.
  change (Prim2SF infinity) with (S754_infinity false).
  destruct (Prim2SF x) as [s|[|]| |s m e]; cbn; try easy.
  rewrite Z.compare_refl, Pos.compare_cont_refl.
  now destruct s.
Qed.

Lemma float_mul_nan (x : float) : (x * nan)%float = nan.
Proof.
  apply Prim2SF_inj. rewrite mul_spec.
  change (Prim2SF nan) with S754_nan.
  destruct (Prim2SF x); reflexivity.
Qed.

(** X4: when the LDL passed as baseline and as projected value is the same
    infinity or NaN, the returned risk is NaN whatever the baseline risk,
    and the recommendation for it is the "Moderate Risk" text. *)
Theorem non_finite_ldl_gives_nan (r ldl : float) :
  is_finite ldl = false ->
  calculate_ldl_effect (PyFloat r) (PyFloat ldl) (PyFloat ldl) = ([], ret (PyFloat nan))
  /\ generate_recommendations (PyFloat nan) = ret moderate_risk.
Proof.
  intros H. split; [|vm_compute; reflexivity].
  unfold calculate_ldl_effect, calculate_ldl_effect_try. cbn.
  rewrite (float_sub_diag_nan ldl H).
  vm_compute. now rewrite float_mul_nan.
Qed.

Lemma non_finite_ldl_gives_nan_witness :
  calculate_ldl_effect (PyFloat 99) (PyFloat neg_infinity) (PyFloat neg_infinity)
  = ([], ret (PyFloat nan))
  /\ generate_recommendations (PyFloat nan) = ret moderate_risk.
Proof.
  apply non_finite_ldl_gives_nan. reflexivity.
Defined.

(** X7: when either LDL argument is [None] the subtraction raises
    [TypeError]; [calculate_ldl_effect] reports it, naming the two types,
    and returns the baseline risk unchanged. *)
Theorem missing_ldl_falls_back (r : float) (baseline_ldl final_ldl : pyobj) :
  baseline_ldl = PyNone \/ final_ldl = PyNone ->
  calculate_ldl_effect (PyFloat r) baseline_ldl final_ldl
  = ([st_error ("Error calculating LDL effect: unsupported operand type(s) for -: '"
                ++ type_name baseline_ldl ++ "' and '" ++ type_name final_ldl ++ "'")],
     ret (PyFloat r)).
Proof.
  intros [-> | ->]; [destruct final_ldl | destruct baseline_ldl]; reflexivity.
Qed.

Lemma missing_ldl_falls_back_witness :
  calculate_ldl_effect (PyFloat 25.3) (PyFloat 3.5) PyNone
  = ([st_error "Error calculating LDL effect: unsupported operand type(s) for -: 'float' and 'NoneType'"],
     ret (PyFloat 25.3)).
Proof.
  apply (missing_ldl_falls_back 25.3 (PyFloat 3.5) PyNone). now right.
Defined.

Lemma calculate_ldl_reduction_float (l : float) (pre_statin discharge_statin : string)
    (discharge_add_ons : list string) :
  exists p t : float,
    calculate_ldl_reduction (PyFloat l) pre_statin discharge_statin discharge_add_ons
    = ret (PyFloat p, PyFloat t).
Proof.
  unfold calculate_ldl_reduction, LDL_THERAPIES. cbn [dict_get].
  repeat match goal with
         | |- context [String.eqb discharge_statin ?k] =>
             destruct (String.eqb discharge_statin k)
         end;
    destruct (negb (pre_statin =? "None")),
             (py_in "Ezetimibe" discharge_add_ons),
             (py_in "PCSK9 inhibitor" discharge_add_ons),
             (py_in "Inclisiran" discharge_add_ons);
    vm_compute; eexists _, _; reflexivity.
Qed.

Lemma calculate_ldl_effect_float (r bl fl : float) :
  exists f : float,
    calculate_ldl_effect (PyFloat r) (PyFloat bl) (PyFloat fl) = ([], ret (PyFloat f)).
Proof.
  unfold calculate_ldl_effect, calculate_ldl_effect_try. cbn.
  destruct (PrimFloat.ltb 60 (22 * (bl - fl))); cbn; eexists; reflexivity.
Qed.

Lemma generate_recommendations_float (x : float) :
  exists text : string,
    generate_recommendations (PyFloat x) = ret text
    /\ In text [very_high_risk; high_risk; moderate_risk].
Proof.
  unfold generate_recommendations. cbn.
  destruct (PrimFloat.leb 30 x); [|destruct (PrimFloat.leb 20 x)];
    eexists; (split; [reflexivity | cbn; tauto]).
Qed.

(** X5: in binary64, a statin of the catalog alone, with no add-on, gives
    a patient on no therapy a total reduction of 40, 45, 50 or 55 percent
    and a patient already on a therapy a reduction of 20, 22.5, 25 or 27.5
    percent; the projected LDL is the current LDL times one minus the
    hundredth of that reduction, each operation rounded. *)
Theorem statin_monotherapy_bounds (current_ldl : float) (pre_statin discharge_statin : string) :
  In discharge_statin therapy_keys ->
  exists t : float,
    calculate_ldl_reduction (PyFloat current_ldl) pre_statin discharge_statin []
    = ret (PyFloat (current_ldl * (1 - t / 100)), PyFloat t)
    /\ (pre_statin = "None" -> In t [40; 45; 50; 55]%float)
    /\ (pre_statin <> "None" -> In t [20; 22.5; 25; 27.5]%float).
Proof.
  intros Hin. unfold calculate_ldl_reduction.
  destruct (String.eqb_spec pre_statin "None") as [Hpre|Hpre];
    cbn in Hin; destruct Hin as [<-|[<-|[<-|[<-|[]]]]];
    [exists 40%float | exists 50%float | exists 45%float | exists 55%float
    | exists 20%float | exists 25%float | exists 22.5%float | exists 27.5%float];
    (split; [vm_compute; reflexivity|]);
    (split; [intros E|intros E]); try contradiction; cbn; tauto.
Qed.

Lemma statin_monotherapy_bounds_witness :
  exists t : float,
    calculate_ldl_reduction (PyFloat 3.5) "None" "Rosuvastatin 20 mg" []
    = ret (PyFloat (3.5 * (1 - t / 100)), PyFloat t)
    /\ ("None" = "None" -> In t [40; 45; 50; 55]%float)
    /\ ("None" <> "None" -> In t [20; 22.5; 25; 27.5]%float).
Proof.
  apply statin_monotherapy_bounds. cbn; tauto.
Defined.

(** X23: with a float LDL and a float baseline risk, whatever floats they
    are (infinities and NaN included) and whatever the therapies and
    add-ons, the calculations raise nothing and report no error: the
    treatment steps show the two metrics, the heading and one of the three
    recommendation texts.  They then return, unless the report is asked
    for with a name given: then [create_pdf_report] raises on the
    recommendation text, and no download button is shown. *)
Theorem treatment_impact_float (w : session (T := pyobj)) (l r : float) :
  ldl w = PyFloat l ->
  exists (p t f : float) (text : string),
    treatment_impact w (PyFloat r)
    = ([st_metric "Projected LDL-C" (PyFloat p) (PyFloat t);
        st_metric "Post-Treatment Risk" (PyFloat f) (PyFloat (r - f));
        st_subheader "Clinical Recommendations";
        st_write text],
       if generate_clicked w && negb (patient_name w =? "")
       then raise latin1_error else ret tt)
    /\ In text [very_high_risk; high_risk; moderate_risk].
Proof.
  intros Hl.
  destruct (calculate_ldl_reduction_float l (pre_statin w) (discharge_statin w)
              (discharge_add_ons w)) as (p & t & Hred).
  destruct (calculate_ldl_effect_float r l p) as (f & Heff).
  destruct (generate_recommendations_float f) as (text & Hrec & Hin).
  exists p, t, f, text. split; [|exact Hin].
  unfold treatment_impact. rewrite Hl, Hred.
  cbn -[calculate_ldl_effect generate_recommendations create_pdf_report].
  rewrite Heff. cbn -[generate_recommendations create_pdf_report]. rewrite Hrec.
  cbn -[create_pdf_report].
  destruct (generate_clicked w && negb (patient_name w =? "")); [|reflexivity].
  rewrite (create_pdf_report_raises _ _ _ _ _ _ _ _ Hin). reflexivity.
Qed.

Lemma treatment_impact_float_witness :
  exists (p t f : float) (text : string),
    treatment_impact float_session (PyFloat 28.9)
    = ([st_metric "Projected LDL-C" (PyFloat p) (PyFloat t);
        st_metric "Post-Treatment Risk" (PyFloat f) (PyFloat (28.9 - f));
        st_subheader "Clinical Recommendations";
        st_write text],
       raise latin1_error)
    /\ In text [very_high_risk; high_risk; moderate_risk].
Proof.
  exact (treatment_impact_float float_session 3.5 28.9 eq_refl).
Defined.

End MoreBinary64.

(** ** The name of the report file *)

Lemma replace_space_no_space (s : string) :
  ~ In " "%char (list_ascii_of_string (replace_space s)).
Proof.
  induction s as [|c s IH]; cbn; [tauto|].
  intros [H|H]; [|contradiction].
  destruct (Ascii.eqb_spec c " "%char) as [->|Hc]; [discriminate | contradiction].
Qed.

Lemma replace_space_length (s : string) :
  String.length (replace_space s) = String.length s.
Proof. induction s as [|c s IH]; cbn; congruence. Qed.

Lemma replace_space_id (s : string) :
  ~ In " "%char (list_ascii_of_string s) -> replace_space s = s.
Proof.
  induction s as [|c s IH]; cbn; [reflexivity|].
  intros H. destruct (Ascii.eqb_spec c " "%char) as [->|Hc]; [tauto|].
  f_equal. apply IH. tauto.
Qed.

Lemma list_ascii_app (s1 s2 : string) :
  list_ascii_of_string (s1 ++ s2) = (list_ascii_of_string s1 ++ list_ascii_of_string s2)%list.
Proof. induction s1; cbn; congruence. Qed.

Lemma length_app (s1 s2 : string) :
  String.length (s1 ++ s2) = (String.length s1 + String.length s2)%nat.
Proof. induction s1; cbn; congruence. Qed.

(** X26: the file name offered for the report holds no space, is the
    patient name with 15 characters appended, and is the patient name
    followed by "_CVD_Report.pdf" when the name has no space. *)
Theorem report_file_name_no_space (patient_name : string) :
  let file_name := replace_space patient_name ++ "_CVD_Report.pdf" in
  ~ In " "%char (list_ascii_of_string file_name)
  /\ String.length file_name = (String.length patient_name + 15)%nat
  /\ (~ In " "%char (list_ascii_of_string patient_name) ->
      file_name = patient_name ++ "_CVD_Report.pdf").
Proof.
  cbn zeta. split; [|split].
  - rewrite list_ascii_app, in_app_iff. intros [H|H].
    + now apply replace_space_no_space in H.
    + cbn in H. repeat (destruct H as [H|H]; [discriminate|]). contradiction.
  - rewrite length_app, replace_space_length. reflexivity.
  - intros H. now rewrite replace_space_id.
Qed.
